(** * ExitGuard backend (backend/app.py): risk engine, session aggregation,
      intervention / conversion recording and dashboard statistics.

    The development is a shallow embedding of the request handlers of
    [backend/app.py] and of the pure functions they call.

    Modelling conventions.
    - Python numbers ([int] and [float]) are exact rationals [Q]; the rounding,
      the infinities and the NaN of binary floating point are outside the
      model.  [bool] is a subclass of [int] in Python, so a JSON boolean that
      reaches arithmetic takes part as 0 or 1.
    - A JSON document is a [pyval]; a Python [str] is a [string] of bytes.
    - A [dict] whose iteration order matters (the request's [behaviors], the
      session store) is an association list in insertion order; the
      [behaviors] of a session, only ever read by key, is a [gmap].
    - The handlers thread the store explicitly: each one maps a store and a
      request to the new store and the HTTP response.  Authentication, rate
      limiting and failures of the Redis connection are outside the model. *)

From Stdlib Require Import ZArith QArith Qround Qminmax Lia Lqa.
From Stdlib Require Import String Ascii List Permutation Sorted.
From stdpp Require Import base option list strings gmap pretty.
Import ListNotations.

Local Open Scope string_scope.
Local Open Scope Z_scope.

(** ** Python primitives *)

Module Py.

(** [a >= b] on numbers. *)
Definition ge (a b : Q) : bool := Qle_bool b a.

(** [a < b] on numbers. *)
Definition lt (a b : Q) : bool := negb (Qle_bool b a).

(** [max(a, b)]: the first argument unless the second is strictly greater. *)
Definition max (a b : Q) : Q := if lt a b then b else a.

(** [min(a, b)]: the first argument unless the second is strictly smaller. *)
Definition min (a b : Q) : Q := if lt b a then b else a.

(** [int(x)] on a number: truncation toward zero. *)
Definition int (x : Q) : Z := Z.quot (Qnum x) (Z.pos (Qden x)).

(** [round(x, ndigits)]: to the nearest multiple of [10^-ndigits], a tie
    going to the even neighbour. *)
Definition round_half_even (x : Q) : Z :=
  let f := Qfloor x in
  let r := (x - inject_Z f)%Q in
  match (r ?= 1 # 2)%Q with
  | Lt => f
  | Gt => f + 1
  | Eq => if Z.even f then f else f + 1
  end.

Definition round (x : Q) (ndigits : nat) : Q :=
  let s := inject_Z (10 ^ Z.of_nat ndigits) in
  (inject_Z (round_half_even (x * s)) / s)%Q.

(** [sep.join(l)]. *)
Fixpoint join (sep : string) (l : list string) : string :=
  match l with
  | [] => ""
  | [x] => x
  | x :: rest => x ++ sep ++ join sep rest
  end.

End Py.

(** ** Risk engine *)

(** [behaviors.get(key, 0)] *)
Definition get0 (behaviors : gmap string Q) (key : string) : Q :=
  default 0%Q (behaviors !! key).

Definition calculate_churn_risk (behaviors : gmap string Q) : Z :=
  let rage_clicks := get0 behaviors "rageClicks" in
  let dead_clicks := get0 behaviors "deadClicks" in
  let idle_time := get0 behaviors "idleTime" in
  let hesitations := get0 behaviors "hesitations" in
  let scroll_count := get0 behaviors "scrollCount" in
  let mouse_jiggles := get0 behaviors "mouseJiggles" in
  let frustration_signals := 0 in
  let frustration_signals :=
    if Py.ge rage_clicks 2 then frustration_signals + 1 else frustration_signals in
  let frustration_signals :=
    if Py.ge dead_clicks 2 then frustration_signals + 1 else frustration_signals in
  let frustration_signals :=
    if Py.ge hesitations 3 then frustration_signals + 1 else frustration_signals in
  let frustration_signals :=
    if Py.ge idle_time 20 then frustration_signals + 1 else frustration_signals in
  let frustration_signals :=
    if Py.ge mouse_jiggles 6 then frustration_signals + 1 else frustration_signals in
  if frustration_signals <? 2 then Z.min 20 (frustration_signals * 10)
  else
    let score :=
      (rage_clicks * 20 + dead_clicks * 10 + hesitations * 5 +
       mouse_jiggles * 2 + Py.min (idle_time / 2) 15 * 2)%Q in
    let risk_score := Z.min 100 (Py.int score) in
    risk_score.

Definition identify_root_cause (behaviors : gmap string Q) : string :=
  let rage_clicks := get0 behaviors "rageClicks" in
  let dead_clicks := get0 behaviors "deadClicks" in
  let idle_time := get0 behaviors "idleTime" in
  let hesitations := get0 behaviors "hesitations" in
  let causes : list string := [] in
  let causes :=
    if Py.ge rage_clicks 2
    then (causes ++ ["High frustration (rage clicks detected)"])%list else causes in
  let causes :=
    if Py.ge dead_clicks 2
    then (causes ++ ["UI responsiveness issues (dead clicks)"])%list else causes in
  let causes :=
    if Py.ge idle_time 15
    then (causes ++ ["User confusion or distraction (extended idle)"])%list else causes in
  let causes :=
    if Py.ge hesitations 3
    then (causes ++ ["Purchase hesitation"])%list else causes in
  match causes with
  | [] => "Normal user behavior"
  | _ => Py.join " + " causes
  end.

Definition suggest_intervention (risk_score : Z) (root_cause : string) : string :=
  if risk_score <? 30 then "Monitor session - no intervention needed"
  else if risk_score <? 60
  then "Prepare proactive outreach - user showing mild frustration"
  else "IMMEDIATE INTERVENTION - Trigger discount popup or live chat".

(** ** JSON values and validation *)

#[local] Set Warnings "-register-all".

Inductive pyval : Type :=
| PyNone
| PyBool (b : bool)
| PyNum (x : Q)
| PyStr (s : string)
| PyList (l : list pyval)
| PyDict (d : list (string * pyval)).

(** Truth value of an object, as [not v] tests it. *)
Definition truthy (v : pyval) : bool :=
  match v with
  | PyNone => false
  | PyBool b => b
  | PyNum x => negb (Qeq_bool x 0)
  | PyStr s => negb (String.eqb s "")
  | PyList l => negb (Nat.eqb (List.length l) 0)
  | PyDict d => negb (Nat.eqb (List.length d) 0)
  end.

(** [isinstance(v, str)] *)
Definition is_str (v : pyval) : bool :=
  match v with PyStr _ => true | _ => false end.

(** The numeric value of [v] when [isinstance(v, (int, float))] holds;
    [bool] is a subclass of [int]. *)
Definition as_number (v : pyval) : option Q :=
  match v with
  | PyBool b => Some (if b then 1%Q else 0%Q)
  | PyNum x => Some x
  | _ => None
  end.

(** Membership in the character class [[a-zA-Z0-9\-_]]. *)
Definition is_id_char (c : ascii) : bool :=
  let n := nat_of_ascii c in
  ((97 <=? n) && (n <=? 122) || (65 <=? n) && (n <=? 90) ||
   (48 <=? n) && (n <=? 57) || (n =? 45) || (n =? 95))%nat.

(** What is left of the string after the longest run of class characters. *)
Fixpoint skip_id_chars (s : string) : string :=
  match s with
  | String c rest => if is_id_char c then skip_id_chars rest else s
  | EmptyString => s
  end.

(** The line feed, ["\n"]. *)
Definition LF : string := String (ascii_of_nat 10) EmptyString.

(** [re.match(r'^[a-zA-Z0-9\-_]+$', s)].  The class matches one character
    or more; [$], without [re.MULTILINE], matches at the end of the string
    and also just before a line feed that ends the string.  No character of
    the class is a line feed, so only the longest run can be followed by
    either. *)
Definition re_match_session_id (s : string) : bool :=
  let rest := skip_id_chars s in
  negb (String.eqb rest s) && (String.eqb rest "" || String.eqb rest LF).

Definition validate_session_id (session_id : pyval) : bool :=
  if negb (truthy session_id) || negb (is_str session_id) then false
  else
    match session_id with
    | PyStr s =>
        if (100 <? String.length s)%nat then false
        else if negb (re_match_session_id s) then false
        else true
    | _ => false
    end.

(** The JSON body of a tracking request.  [None] is a key that is absent. *)
Record TrackData := {
  req_session_id : option pyval;
  req_behaviors : option pyval;
  req_timestamp : Z;
  req_events : list pyval;
  req_mood : option string;
  req_moodScores : option pyval;
  req_moodConfidence : option Q
}.

(** The pair that [validate_behavior_data] returns: [(True, None)] is
    [Valid], [(False, msg)] is [Invalid msg]. *)
Inductive Validation :=
| Valid
| Invalid (error_msg : string).

Definition valid_behaviors : list string :=
  ["rageClicks"; "deadClicks"; "hesitations"; "idleTime"; "scrollCount";
   "mouseJiggles"; "cartRevisits"; "itemAddRemoves"; "scrollDirectionChanges";
   "mouseShakeIntensity"; "priceAreaTime"; "modalToggle"; "tabSwitches";
   "mouseExitAttempts"; "addToCartActions"; "checkoutAttempts"].

(** [key in valid_behaviors] *)
Definition key_in (key : string) (l : list string) : bool :=
  existsb (String.eqb key) l.

(** [not isinstance(value, (int, float)) or value < 0] *)
Definition invalid_value (value : pyval) : bool :=
  match as_number value with
  | None => true
  | Some x => Py.lt x 0
  end.

(** The loop over [behaviors.items()]. *)
Fixpoint check_behaviors (items : list (string * pyval)) : Validation :=
  match items with
  | [] => Valid
  | (key, value) :: rest =>
      if negb (key_in key valid_behaviors)
      then Invalid ("Unknown behavior type: " ++ key)
      else if invalid_value value
      then Invalid ("Invalid value for " ++ key)
      else check_behaviors rest
  end.

Definition validate_behavior_data (data : TrackData) : Validation :=
  match req_session_id data with
  | None => Invalid "Missing required field: session_id"
  | Some session_id =>
      match req_behaviors data with
      | None => Invalid "Missing required field: behaviors"
      | Some behaviors =>
          if negb (validate_session_id session_id)
          then Invalid "Invalid session ID format"
          else
            match behaviors with
            | PyDict items => check_behaviors items
            | _ => Invalid "Behaviors must be an object"
            end
      end
  end.

(** ** Sessions and the session store *)

Inductive ConversionStatus := pending | converted | salvaged.

Record MoodEntry := {
  entry_mood : string;
  entry_confidence : Q;
  entry_timestamp : Z
}.

Record Session := {
  session_id : string;
  start_time : Z;
  last_active : Z;
  events : list pyval;
  behaviors : gmap string Q;
  risk_score : Z;
  root_cause : string;
  suggested_action : string;
  intervention_triggered : bool;
  intervention_type : option string;
  intervention_time : option Z;
  conversion_status : ConversionStatus;
  order_value : Q;
  converted_at : option Z;
  mood : string;
  mood_scores : pyval;
  mood_confidence : Q;
  mood_history : list MoodEntry
}.

(** A [dict] in insertion order. *)
Fixpoint dict_get {V : Type} (d : list (string * V)) (key : string) : option V :=
  match d with
  | [] => None
  | (k, v) :: rest => if String.eqb k key then Some v else dict_get rest key
  end.

(** [d[key] = value]: an existing key keeps its position, a new key goes last. *)
Fixpoint dict_set {V : Type} (d : list (string * V)) (key : string) (value : V)
  : list (string * V) :=
  match d with
  | [] => [(key, value)]
  | (k, v) :: rest =>
      if String.eqb k key then (k, value) :: rest
      else (k, v) :: dict_set rest key value
  end.

(** The two storage variants.  [redis_client] tells whether the connection
    to Redis succeeded at start-up; [redis_db] maps a key to the expiry in
    seconds given to [setex] and the stored session; [sessions_memory] is
    the fallback mapping, which has no expiry.  Expiry itself is not
    modelled: an entry stays until it is overwritten.  On the fallback the
    handlers get the stored [dict] itself and assign to it before they store it
    again; every path of a handler returns before its first assignment or
    reaches the store, so the assignments and the store are one step here. *)
Record Store := {
  redis_client : bool;
  redis_db : list (string * (Z * Session));
  sessions_memory : list (string * Session)
}.

Definition redis_key (session_id : string) : string := "session:" ++ session_id.

Definition setex (st : Store) (key : string) (ttl : Z) (value : Session) : Store :=
  {| redis_client := redis_client st;
     redis_db := dict_set (redis_db st) key (ttl, value);
     sessions_memory := sessions_memory st |}.

Definition memory_set (st : Store) (session_id : string) (value : Session) : Store :=
  {| redis_client := redis_client st;
     redis_db := redis_db st;
     sessions_memory := dict_set (sessions_memory st) session_id value |}.

Definition store_session_redis (st : Store) (session_id : string)
    (session_data : Session) : Store :=
  if redis_client st
  then setex st (redis_key session_id) 300 session_data
  else memory_set st session_id session_data.

Definition get_session_redis (st : Store) (session_id : string) : option Session :=
  if redis_client st
  then snd <$> dict_get (redis_db st) (redis_key session_id)
  else dict_get (sessions_memory st) session_id.

Definition get_all_sessions_redis (st : Store) : list Session :=
  if redis_client st
  then
    List.map (fun kv => snd (snd kv))
      (List.filter (fun kv => String.prefix "session:" (fst kv)) (redis_db st))
  else List.map snd (sessions_memory st).

(** ** HTTP responses *)

Inductive Response (A : Type) : Type :=
| Ok (body : A)                 (* 200 *)
| BadRequest (error : string)   (* 400, a validation failure *)
| NotFound (error : string)     (* 404 *)
| InternalError.                (* 500, the handler's [except] clause *)

Arguments Ok {A} body.
Arguments BadRequest {A} error.
Arguments NotFound {A} error.
Arguments InternalError {A}.

(** ** Session aggregator: [/api/track] *)

Record TrackBody := {
  track_session_id : string;
  track_risk_score : Z;
  track_root_cause : string;
  track_suggested_action : string;
  track_mood : string
}.

(** The session built when the store has none under the id. *)
Definition new_session (session_id : string) (timestamp : Z) : Session :=
  {| session_id := session_id;
     start_time := timestamp;
     last_active := timestamp;
     events := [];
     behaviors :=
       <["mouseJiggles" := 0%Q]> (<["scrollCount" := 0%Q]>
       (<["hesitations" := 0%Q]> (<["idleTime" := 0%Q]>
       (<["deadClicks" := 0%Q]> (<["rageClicks" := 0%Q]> ∅)))));
     risk_score := 0;
     root_cause := "Normal user behavior";
     suggested_action := "Monitor session";
     intervention_triggered := false;
     intervention_type := None;
     intervention_time := None;
     conversion_status := pending;
     order_value := 0%Q;
     converted_at := None;
     mood := "neutral";
     mood_scores := PyDict [];
     mood_confidence := 0%Q;
     mood_history := [] |}.

(** The loop [for key, value in behaviors.items():
    session['behaviors'][key] = max(session['behaviors'].get(key, 0), value)].
    [None] is the [TypeError] of [max] on a value that is not a number. *)
Fixpoint merge_behaviors (stored : gmap string Q) (items : list (string * pyval))
  : option (gmap string Q) :=
  match items with
  | [] => Some stored
  | (key, value) :: rest =>
      match as_number value with
      | Some x => merge_behaviors (<[key := Py.max (get0 stored key) x]> stored) rest
      | None => None
      end
  end.

(** The mood block: the history grows when the incoming mood is not
    ['neutral'] and differs from the session's mood before the update. *)
Definition update_mood_history (session : Session) (new_mood : string)
    (new_confidence : Q) (timestamp : Z) : list MoodEntry :=
  if negb (String.eqb new_mood "neutral") &&
     negb (String.eqb new_mood (mood session))
  then
    (mood_history session ++
       [{| entry_mood := new_mood;
           entry_confidence := new_confidence;
           entry_timestamp := timestamp |}])%list
  else mood_history session.

(** [get_session_redis(session_id)], or the new session when there is none. *)
Definition get_or_create (st : Store) (sid : string) (timestamp : Z) : Session :=
  match get_session_redis st sid with
  | Some session => session
  | None => new_session sid timestamp
  end.

(** [data.get('mood', 'neutral')], [data.get('moodScores', {})] and
    [data.get('moodConfidence', 0)]. *)
Definition data_mood (data : TrackData) : string :=
  default "neutral" (req_mood data).
Definition data_mood_scores (data : TrackData) : pyval :=
  default (PyDict []) (req_moodScores data).
Definition data_mood_confidence (data : TrackData) : Q :=
  default 0%Q (req_moodConfidence data).

(** The assignments of [track_events] to the session, from
    [session['last_active'] = timestamp] to
    [session['suggested_action'] = suggested_action]; [merged] is the
    behaviors map that the merging loop leaves. *)
Definition update_session (session : Session) (data : TrackData)
    (merged : gmap string Q) : Session :=
  let timestamp := req_timestamp data in
  let risk := calculate_churn_risk merged in
  let cause := identify_root_cause merged in
  let action := suggest_intervention risk cause in
  {| session_id := session_id session;
     start_time := start_time session;
     last_active := timestamp;
     events := (events session ++ req_events data)%list;
     behaviors := merged;
     risk_score := risk;
     root_cause := cause;
     suggested_action := action;
     intervention_triggered := intervention_triggered session;
     intervention_type := intervention_type session;
     intervention_time := intervention_time session;
     conversion_status := conversion_status session;
     order_value := order_value session;
     converted_at := converted_at session;
     mood := data_mood data;
     mood_scores := data_mood_scores data;
     mood_confidence := data_mood_confidence data;
     mood_history :=
       update_mood_history session (data_mood data) (data_mood_confidence data)
         timestamp |}.

Definition track_events (st : Store) (data : TrackData)
  : Store * Response TrackBody :=
  match validate_behavior_data data with
  | Invalid error_msg => (st, BadRequest error_msg)
  | Valid =>
      match req_session_id data, req_behaviors data with
      | Some (PyStr sid), Some (PyDict items) =>
          let session := get_or_create st sid (req_timestamp data) in
          match merge_behaviors (behaviors session) items with
          | None => (st, InternalError)
          | Some merged =>
              let session' := update_session session data merged in
              (store_session_redis st sid session',
               Ok {| track_session_id := sid;
                     track_risk_score := risk_score session';
                     track_root_cause := root_cause session';
                     track_suggested_action := suggested_action session';
                     track_mood := data_mood data |})
          end
      | _, _ => (st, InternalError)
      end
  end.

(** ** Intervention and conversion recorder *)

(** The body of [/api/intervention]; [data.get('session_id')] is [PyNone]
    when the key is absent. *)
Record InterventionData := {
  int_session_id : pyval;
  int_intervention_type : option string;
  int_timestamp : Z
}.

(** The three assignments of [mark_intervention]. *)
Definition with_intervention (session : Session) (new_type : string)
    (timestamp : Z) : Session :=
  {| session_id := session_id session;
     start_time := start_time session;
     last_active := last_active session;
     events := events session;
     behaviors := behaviors session;
     risk_score := risk_score session;
     root_cause := root_cause session;
     suggested_action := suggested_action session;
     intervention_triggered := true;
     intervention_type := Some new_type;
     intervention_time := Some timestamp;
     conversion_status := conversion_status session;
     order_value := order_value session;
     converted_at := converted_at session;
     mood := mood session;
     mood_scores := mood_scores session;
     mood_confidence := mood_confidence session;
     mood_history := mood_history session |}.

Definition mark_intervention (st : Store) (data : InterventionData)
  : Store * Response unit :=
  let sid_value := int_session_id data in
  let new_type := default "discount_popup" (int_intervention_type data) in
  let timestamp := int_timestamp data in
  if negb (validate_session_id sid_value)
  then (st, BadRequest "Invalid session ID format")
  else
    match sid_value with
    | PyStr sid =>
        match get_session_redis st sid with
        | None => (st, NotFound "Session not found")
        | Some session =>
            let session' := with_intervention session new_type timestamp in
            (store_session_redis st sid session', Ok tt)
        end
    | _ => (st, InternalError)
    end.

(** The body of [/api/convert]. *)
Record ConversionData := {
  conv_session_id : pyval;
  conv_order_value : option Q;
  conv_timestamp : Z
}.

Record ConversionBody := {
  conv_salvaged : bool;
  conv_revenue_saved : Q;
  conv_conversion_status : ConversionStatus
}.

(** [session['risk_score'] >= 60 and session['intervention_triggered'] == True] *)
Definition is_salvaged (session : Session) : bool :=
  (60 <=? risk_score session) && Bool.eqb (intervention_triggered session) true.

(** The three assignments of [record_conversion]. *)
Definition with_conversion (session : Session) (new_order_value : Q)
    (timestamp : Z) : Session :=
  {| session_id := session_id session;
     start_time := start_time session;
     last_active := last_active session;
     events := events session;
     behaviors := behaviors session;
     risk_score := risk_score session;
     root_cause := root_cause session;
     suggested_action := suggested_action session;
     intervention_triggered := intervention_triggered session;
     intervention_type := intervention_type session;
     intervention_time := intervention_time session;
     conversion_status := if is_salvaged session then salvaged else converted;
     order_value := new_order_value;
     converted_at := Some timestamp;
     mood := mood session;
     mood_scores := mood_scores session;
     mood_confidence := mood_confidence session;
     mood_history := mood_history session |}.

(** The store's upsert with an expiry; the fallback mapping drops the expiry. *)
Definition put (st : Store) (session_id : string) (ttl : Z) (value : Session)
  : Store :=
  if redis_client st
  then setex st (redis_key session_id) ttl value
  else memory_set st session_id value.

Definition record_conversion (st : Store) (data : ConversionData)
  : Store * Response ConversionBody :=
  let sid_value := conv_session_id data in
  let new_order_value := default 0%Q (conv_order_value data) in
  let timestamp := conv_timestamp data in
  if negb (validate_session_id sid_value)
  then (st, BadRequest "Invalid session ID format")
  else
    match sid_value with
    | PyStr sid =>
        match get_session_redis st sid with
        | None => (st, NotFound "Session not found")
        | Some session =>
            let salvaged_now := is_salvaged session in
            let session' := with_conversion session new_order_value timestamp in
            let st' :=
              if redis_client st
              then setex st (redis_key sid) 3600 session'
              else memory_set st sid session' in
            (st',
             Ok {| conv_salvaged := salvaged_now;
                   conv_revenue_saved :=
                     if salvaged_now then new_order_value else 0%Q;
                   conv_conversion_status := conversion_status session' |})
        end
    | _ => (st, InternalError)
    end.

(** ** Dashboard aggregator *)

(** The summary of a session in the [/api/sessions] listing. *)
Record Summary := {
  sum_session_id : string;
  sum_risk_score : Z;
  sum_root_cause : string;
  sum_suggested_action : string;
  sum_last_active : string;
  sum_behaviors : gmap string Q;
  sum_mood : string;
  sum_mood_confidence : Q;
  sum_mood_scores : pyval
}.

(** [(current_time - session['last_active']) / 1000] *)
Definition last_active_seconds (current_time : Z) (session : Session) : Q :=
  (inject_Z (current_time - last_active session) / 1000)%Q.

Definition summary (current_time : Z) (session : Session) : Summary :=
  {| sum_session_id := session_id session;
     sum_risk_score := risk_score session;
     sum_root_cause := root_cause session;
     sum_suggested_action := suggested_action session;
     sum_last_active :=
       pretty (Py.int (last_active_seconds current_time session)) ++ "s ago";
     sum_behaviors := behaviors session;
     sum_mood := mood session;
     sum_mood_confidence := mood_confidence session;
     sum_mood_scores := mood_scores session |}.

(** The loop that fills [active_sessions]. *)
Fixpoint collect_active (current_time : Z) (all_sessions : list Session)
  : list Summary :=
  match all_sessions with
  | [] => []
  | session :: rest =>
      if Py.lt (last_active_seconds current_time session) 300
      then summary current_time session :: collect_active current_time rest
      else collect_active current_time rest
  end.

(** [l.sort(key=lambda x: x['risk_score'], reverse=True)].  Python's sort is
    stable, also with [reverse=True]; the result of a stable sort does not
    depend on the algorithm, here insertion from the right. *)
Fixpoint insert_by_risk (x : Summary) (l : list Summary) : list Summary :=
  match l with
  | [] => [x]
  | y :: rest =>
      if sum_risk_score x <? sum_risk_score y
      then y :: insert_by_risk x rest
      else x :: y :: rest
  end.

Fixpoint sort_by_risk_desc (l : list Summary) : list Summary :=
  match l with
  | [] => []
  | x :: rest => insert_by_risk x (sort_by_risk_desc rest)
  end.

Record SessionsBody := {
  sessions : list Summary;
  total_sessions : nat;
  high_risk_count : nat
}.

(** [/api/sessions]; [current_time] is [int(time.time() * 1000)]. *)
Definition get_all_sessions (st : Store) (current_time : Z) : SessionsBody :=
  let all_sessions := get_all_sessions_redis st in
  let active_sessions := collect_active current_time all_sessions in
  let active_sessions := sort_by_risk_desc active_sessions in
  {| sessions := active_sessions;
     total_sessions := List.length active_sessions;
     high_risk_count :=
       List.length (List.filter (fun s => 60 <=? sum_risk_score s) active_sessions) |}.

Record StatsBody := {
  total_salvaged_customers : nat;
  total_revenue_saved : Q;
  salvage_rate : Q;
  intervention_success_rate : Q;
  avg_salvage_value : Q;
  total_high_risk : nat;
  total_conversions : nat;
  total_revenue : Q;
  salvaged_sessions : list Session
}.

Definition status_eqb (a b : ConversionStatus) : bool :=
  match a, b with
  | pending, pending | converted, converted | salvaged, salvaged => true
  | _, _ => false
  end.

(** [sum(s.get('order_value', 0) for s in l)] *)
Definition sum_order_value (l : list Session) : Q :=
  fold_left (fun acc s => (acc + order_value s)%Q) l 0%Q.

(** The number [len(l)] as a Python number. *)
Definition len (l : list Session) : Q := inject_Z (Z.of_nat (List.length l)).

(** [/api/salvage-stats] *)
Definition get_salvage_stats (st : Store) : StatsBody :=
  let all_sessions := get_all_sessions_redis st in
  let high_risk_sessions :=
    List.filter (fun s => 60 <=? risk_score s) all_sessions in
  let salvaged_list :=
    List.filter (fun s => status_eqb (conversion_status s) salvaged) all_sessions in
  let converted_sessions :=
    List.filter
      (fun s => existsb (status_eqb (conversion_status s)) [converted; salvaged])
      all_sessions in
  let total_salvaged := List.length salvaged_list in
  let high_risk_total := List.length high_risk_sessions in
  let conversions_total := List.length converted_sessions in
  let rate :=
    if (0 <? high_risk_total)%nat
    then (len salvaged_list / len high_risk_sessions)%Q else 0%Q in
  let revenue_saved := sum_order_value salvaged_list in
  let avg_value :=
    if (0 <? total_salvaged)%nat
    then (revenue_saved / len salvaged_list)%Q else 0%Q in
  let success_rate := rate in
  let revenue_total := sum_order_value converted_sessions in
  {| total_salvaged_customers := total_salvaged;
     total_revenue_saved := Py.round revenue_saved 2;
     salvage_rate := Py.round rate 4;
     intervention_success_rate := Py.round success_rate 4;
     avg_salvage_value := Py.round avg_value 2;
     total_high_risk := high_risk_total;
     total_conversions := conversions_total;
     total_revenue := Py.round revenue_total 2;
     salvaged_sessions := salvaged_list |}.

(** ** Sequences of requests *)

Inductive Request :=
| Track (data : TrackData)
| Intervention (data : InterventionData)
| Conversion (data : ConversionData).

(** The store after one request. *)
Definition step (st : Store) (r : Request) : Store :=
  match r with
  | Track data => fst (track_events st data)
  | Intervention data => fst (mark_intervention st data)
  | Conversion data => fst (record_conversion st data)
  end.

(** The store after a sequence of requests, served one after the other. *)
Definition run (st : Store) (rs : list Request) : Store := fold_left step rs st.

(** The store of a freshly started server, on Redis or on the fallback. *)
Definition empty_store (redis : bool) : Store :=
  {| redis_client := redis; redis_db := []; sessions_memory := [] |}.

(** What a request can do to a session that is in the store: nothing (the
    request fails or names another session), or the assignments of its
    handler. *)
Inductive session_step : Request -> Session -> Session -> Prop :=
| step_none r s : session_step r s s
| step_track data items merged s :
    check_behaviors items = Valid ->
    merge_behaviors (behaviors s) items = Some merged ->
    session_step (Track data) s (update_session s data merged)
| step_intervention data s :
    session_step (Intervention data) s
      (with_intervention s
         (default "discount_popup" (int_intervention_type data))
         (int_timestamp data))
| step_conversion data s :
    session_step (Conversion data) s
      (with_conversion s (default 0%Q (conv_order_value data))
         (conv_timestamp data)).

(** A tracking request that carries one behavior counter. *)
Definition single_delta (sid : string) (timestamp : Z) (key : string) (value : Q)
  : TrackData :=
  {| req_session_id := Some (PyStr sid);
     req_behaviors := Some (PyDict [(key, PyNum value)]);
     req_timestamp := timestamp;
     req_events := [];
     req_mood := None;
     req_moodScores := None;
     req_moodConfidence := None |}.

(** A tracking request that carries a mood and no behavior counter. *)
Definition mood_request (sid : string) (timestamp : Z) (new_mood : string)
  : TrackData :=
  {| req_session_id := Some (PyStr sid);
     req_behaviors := Some (PyDict []);
     req_timestamp := timestamp;
     req_events := [];
     req_mood := Some new_mood;
     req_moodScores := None;
     req_moodConfidence := None |}.


(** Two sessions that agree on every field but [intervention_triggered],
    [intervention_type] and [intervention_time]. *)
Definition same_but_intervention (s s' : Session) : Prop :=
  session_id s' = session_id s /\ start_time s' = start_time s /\
  last_active s' = last_active s /\ events s' = events s /\
  behaviors s' = behaviors s /\ risk_score s' = risk_score s /\
  root_cause s' = root_cause s /\ suggested_action s' = suggested_action s /\
  conversion_status s' = conversion_status s /\
  order_value s' = order_value s /\ converted_at s' = converted_at s /\
  mood s' = mood s /\ mood_scores s' = mood_scores s /\
  mood_confidence s' = mood_confidence s /\ mood_history s' = mood_history s.

(** Two sessions that agree on every field but [conversion_status],
    [order_value] and [converted_at]. *)
Definition same_but_conversion (s s' : Session) : Prop :=
  session_id s' = session_id s /\ start_time s' = start_time s /\
  last_active s' = last_active s /\ events s' = events s /\
  behaviors s' = behaviors s /\ risk_score s' = risk_score s /\
  root_cause s' = root_cause s /\ suggested_action s' = suggested_action s /\
  intervention_triggered s' = intervention_triggered s /\
  intervention_type s' = intervention_type s /\
  intervention_time s' = intervention_time s /\
  mood s' = mood s /\ mood_scores s' = mood_scores s /\
  mood_confidence s' = mood_confidence s /\ mood_history s' = mood_history s.

(** A tracking request whose counters score 75: two rage clicks, two dead
    clicks and three hesitations. *)
Definition high_risk_request (sid : string) (timestamp : Z) : TrackData :=
  {| req_session_id := Some (PyStr sid);
     req_behaviors :=
       Some (PyDict [("rageClicks", PyNum 2); ("deadClicks", PyNum 2);
                     ("hesitations", PyNum 3)]);
     req_timestamp := timestamp;
     req_events := [];
     req_mood := None;
     req_moodScores := None;
     req_moodConfidence := None |}.

Definition intervention_request (sid : string) (timestamp : Z) : InterventionData :=
  {| int_session_id := PyStr sid;
     int_intervention_type := None;
     int_timestamp := timestamp |}.

Definition conversion_request (sid : string) (paid : Q) (timestamp : Z)
  : ConversionData :=
  {| conv_session_id := PyStr sid;
     conv_order_value := Some paid;
     conv_timestamp := timestamp |}.




(** ** The dashboard as the specification words it *)

(** A session is live when its last activity is less than 300 seconds, that
    is 300000 milliseconds, before [now]. *)
Definition live (now : Z) (s : Session) : bool := now - last_active s <? 300000.




(** ** The salvage statistics as the specification words them *)







(** Three sessions that score 75, one of them converted after an
    intervention. *)
Definition one_salvaged_of_three : list Request :=
  [Track (high_risk_request "visitor-1" 1000);
   Track (high_risk_request "visitor-2" 1000);
   Track (high_risk_request "visitor-3" 1000);
   Intervention (intervention_request "visitor-1" 2000);
   Conversion (conversion_request "visitor-1" 120 3000)].

(** ** The risk score as the specification words it *)

Definition scored_counters : list string :=
  ["rageClicks"; "deadClicks"; "hesitations"; "idleTime"; "mouseJiggles"].


(** One for a threshold that is crossed, zero otherwise. *)
Definition crossed (counter threshold : Q) : Z :=
  if Qle_bool threshold counter then 1 else 0.

Definition spec_signal_count (b : gmap string Q) : Z :=
  crossed (get0 b "rageClicks") 2 + crossed (get0 b "deadClicks") 2 +
  crossed (get0 b "hesitations") 3 + crossed (get0 b "idleTime") 20 +
  crossed (get0 b "mouseJiggles") 6.

Definition spec_weighted_sum (b : gmap string Q) : Q :=
  (get0 b "rageClicks" * 20 + get0 b "deadClicks" * 10 +
   get0 b "hesitations" * 5 + get0 b "mouseJiggles" * 2 +
   Qmin (get0 b "idleTime" / 2) 15 * 2)%Q.



(** ** The root cause as the specification words it *)

(** The four thresholds with their causes, in the order they are tested. *)
Definition cause_table (b : gmap string Q) : list (bool * string) :=
  [(Qle_bool 2 (get0 b "rageClicks"), "High frustration (rage clicks detected)");
   (Qle_bool 2 (get0 b "deadClicks"), "UI responsiveness issues (dead clicks)");
   (Qle_bool 15 (get0 b "idleTime"), "User confusion or distraction (extended idle)");
   (Qle_bool 3 (get0 b "hesitations"), "Purchase hesitation")].

Definition spec_root_cause (b : gmap string Q) : string :=
  match List.map snd (List.filter fst (cause_table b)) with
  | [] => "Normal user behavior"
  | matching => String.concat " + " matching
  end.

(** Example maps. *)
Definition two_signals : gmap string Q :=
  <["rageClicks" := 2%Q]> (<["deadClicks" := 2%Q]> ∅).

Definition idle_fifteen : gmap string Q := <["idleTime" := 15%Q]> ∅.

(** ** Session detail and health endpoints *)




(** ** Notions used by the further properties *)

(** Every character of the string is in the class [[a-zA-Z0-9\-_]]. *)
Definition all_id_chars (s : string) : bool :=
  forallb is_id_char (list_ascii_of_string s).

(** A behaviors entry that the validator accepts. *)
Definition good_entry (kv : string * pyval) : Prop :=
  In (fst kv) valid_behaviors /\
  exists x, as_number (snd kv) = Some x /\ (0 <= x)%Q.

(** A store that the server reaches from start-up. *)
Definition reachable (st : Store) : Prop :=
  exists redis rs, st = run (empty_store redis) rs.

(** The expiry that the handler of a request gives to the store. *)
Definition request_ttl (r : Request) : Z :=
  match r with
  | Conversion _ => 3600
  | _ => 300
  end.

(** The session that a tracking request stores under an id that the store
    does not hold. *)
Inductive created : Request -> string -> Session -> Prop :=
| created_by_track data sid items merged :
    req_session_id data = Some (PyStr sid) ->
    req_behaviors data = Some (PyDict items) ->
    check_behaviors items = Valid ->
    merge_behaviors (behaviors (new_session sid (req_timestamp data))) items
      = Some merged ->
    created (Track data) sid
      (update_session (new_session sid (req_timestamp data)) data merged).

(** The value that a request gives as its session id. *)
Definition request_id (r : Request) : pyval :=
  match r with
  | Track data => default PyNone (req_session_id data)
  | Intervention data => int_session_id data
  | Conversion data => conv_session_id data
  end.

(** ** Invariants of stored sessions *)

(** The derived fields are those of the stored counters. *)
Definition derived_fresh (s : Session) : Prop :=
  risk_score s = calculate_churn_risk (behaviors s) /\
  root_cause s = identify_root_cause (behaviors s) /\
  suggested_action s = suggest_intervention (risk_score s) (root_cause s).

(** Every stored counter has one of the sixteen names and is not negative. *)
Definition counters_valid (b : gmap string Q) : Prop :=
  forall k v, b !! k = Some v -> In k valid_behaviors /\ (0 <= v)%Q.

(** A session marked salvaged satisfies the salvage rule. *)
Definition salvage_sound (s : Session) : Prop :=
  conversion_status s = salvaged -> is_salvaged s = true.

(** The conversion fields go together. *)
Definition conversion_fields (s : Session) : Prop :=
  match conversion_status s with
  | pending => converted_at s = None /\ order_value s = 0%Q
  | _ => is_Some (converted_at s)
  end.

(** The intervention fields go together. *)
Definition intervention_fields (s : Session) : Prop :=
  if intervention_triggered s
  then is_Some (intervention_type s) /\ is_Some (intervention_time s)
  else intervention_type s = None /\ intervention_time s = None.

(** No entry of the mood history is neutral, and a mood that is not neutral
    is the mood of the last entry. *)
Definition mood_consistent (s : Session) : Prop :=
  Forall (fun e => entry_mood e <> "neutral") (mood_history s) /\
  (mood s <> "neutral" ->
   exists earlier e,
     mood_history s = (earlier ++ [e])%list /\ entry_mood e = mood s).

Definition session_inv (s : Session) : Prop :=
  derived_fresh s /\ counters_valid (behaviors s) /\ salvage_sound s /\
  conversion_fields s /\ intervention_fields s /\ mood_consistent s.


(** No key occurs twice in either storage variant. *)
Definition keys_unique (st : Store) : Prop :=
  List.NoDup (List.map fst (redis_db st)) /\
  List.NoDup (List.map fst (sessions_memory st)).

(** Every entry is stored under the key of the id that its session carries. *)
Definition keyed_by_id (st : Store) : Prop :=
  (forall k ttl s, In (k, (ttl, s)) (redis_db st) -> k = redis_key (session_id s)) /\
  (forall k s, In (k, s) (sessions_memory st) -> k = session_id s).

(** * Properties *)

(** ** Numbers *)

Section Numbers.

Lemma ge_true (a b : Q) : Py.ge a b = true <-> (b <= a)%Q.
Proof. unfold Py.ge. apply Qle_bool_iff. Qed.

Lemma ge_false (a b : Q) : Py.ge a b = false <-> (a < b)%Q.
Proof.
  unfold Py.ge. split; intros H.
  - apply Qnot_le_lt. intros Hle. apply Qle_bool_iff in Hle. congruence.
  - destruct (Qle_bool b a) eqn:E; [|reflexivity].
    apply Qle_bool_iff in E. exfalso. apply (Qlt_not_le _ _ H E).
Qed.

Lemma lt_true (a b : Q) : Py.lt a b = true <-> (a < b)%Q.
Proof.
  unfold Py.lt. rewrite Bool.negb_true_iff. apply (ge_false a b).
Qed.

Lemma lt_false (a b : Q) : Py.lt a b = false <-> (b <= a)%Q.
Proof.
  unfold Py.lt. rewrite Bool.negb_false_iff. apply (ge_true a b).
Qed.

(** [max] returns one of its arguments, the larger one. *)
Lemma max_cases (a b : Q) :
  (a < b)%Q /\ Py.max a b = b \/ (b <= a)%Q /\ Py.max a b = a.
Proof.
  unfold Py.max. destruct (Py.lt a b) eqn:E.
  - left. split; [now apply lt_true | reflexivity].
  - right. split; [now apply lt_false | reflexivity].
Qed.

Lemma max_ge_l (a b : Q) : (a <= Py.max a b)%Q.
Proof. destruct (max_cases a b) as [[H ->]|[H ->]]; lra. Qed.

Lemma max_ge_r (a b : Q) : (b <= Py.max a b)%Q.
Proof. destruct (max_cases a b) as [[H ->]|[H ->]]; lra. Qed.

Lemma min_cases (a b : Q) :
  (b < a)%Q /\ Py.min a b = b \/ (a <= b)%Q /\ Py.min a b = a.
Proof.
  unfold Py.min. destruct (Py.lt b a) eqn:E.
  - left. split; [now apply lt_true | reflexivity].
  - right. split; [now apply lt_false | reflexivity].
Qed.

(** On a number that is not negative [int] is the floor. *)
Lemma int_floor (x : Q) : (0 <= x)%Q -> Py.int x = Qfloor x.
Proof.
  destruct x as [n d]. unfold Qle, Py.int, Qfloor. simpl. intros H.
  apply Z.quot_div_nonneg; lia.
Qed.

(** On a negative number it is the ceiling. *)
Lemma int_ceiling (x : Q) : (x <= 0)%Q -> Py.int x = Qceiling x.
Proof.
  destruct x as [n d]. unfold Qle, Py.int, Qceiling, Qfloor. simpl. intros H.
  rewrite <- (Z.opp_involutive n) at 1.
  rewrite Z.quot_opp_l by lia.
  f_equal. apply Z.quot_div_nonneg; lia.
Qed.

Lemma int_compat (x y : Q) : (x == y)%Q -> Py.int x = Py.int y.
Proof.
  intros E. destruct (Qlt_le_dec x 0) as [Hneg|Hpos].
  - rewrite !int_ceiling by lra. now rewrite E.
  - rewrite !int_floor by lra. now rewrite E.
Qed.


Lemma int_le (x y : Q) : (0 <= x)%Q -> (x <= y)%Q -> Py.int x <= Py.int y.
Proof.
  intros H0 H. rewrite !int_floor by lra. now apply Qfloor_resp_le.
Qed.


End Numbers.

(** ** Risk engine *)

Section RiskEngine.


Lemma get0_insert_ne (b : gmap string Q) (k k' : string) (v : Q) :
  k <> k' -> get0 (<[k:=v]> b) k' = get0 b k'.
Proof. intros H. unfold get0. now rewrite lookup_insert_ne. Qed.

Lemma get0_insert_eq (b : gmap string Q) (k : string) (v : Q) :
  get0 (<[k:=v]> b) k = v.
Proof. unfold get0. now rewrite lookup_insert_eq. Qed.

(** The counter that [calculate_churn_risk] increments is the number of
    thresholds crossed. *)
Lemma calculate_churn_risk_unfold (b : gmap string Q) :
  calculate_churn_risk b =
  if spec_signal_count b <? 2 then Z.min 20 (spec_signal_count b * 10)
  else
    Z.min 100
      (Py.int (get0 b "rageClicks" * 20 + get0 b "deadClicks" * 10 +
               get0 b "hesitations" * 5 + get0 b "mouseJiggles" * 2 +
               Py.min (get0 b "idleTime" / 2) 15 * 2)%Q).
Proof.
  unfold calculate_churn_risk, spec_signal_count, crossed, Py.ge.
  destruct (Qle_bool 2 (get0 b "rageClicks")),
           (Qle_bool 2 (get0 b "deadClicks")),
           (Qle_bool 3 (get0 b "hesitations")),
           (Qle_bool 20 (get0 b "idleTime")),
           (Qle_bool 6 (get0 b "mouseJiggles")); reflexivity.
Qed.

Lemma spec_signal_count_range (b : gmap string Q) : 0 <= spec_signal_count b <= 5.
Proof.
  unfold spec_signal_count, crossed.
  repeat match goal with |- context [Qle_bool ?a ?c] => destruct (Qle_bool a c) end;
    lia.
Qed.

(** The weighted sum of the code and the one of the specification are the
    same number. *)
Lemma weighted_sum_eq (b : gmap string Q) :
  (get0 b "rageClicks" * 20 + get0 b "deadClicks" * 10 +
   get0 b "hesitations" * 5 + get0 b "mouseJiggles" * 2 +
   Py.min (get0 b "idleTime" / 2) 15 * 2 == spec_weighted_sum b)%Q.
Proof.
  unfold spec_weighted_sum.
  destruct (min_cases (get0 b "idleTime" / 2) 15) as [[H ->]|[H ->]].
  - rewrite Q.min_r by lra. reflexivity.
  - rewrite Q.min_l by lra. reflexivity.
Qed.




Lemma nonneg_empty (k : string) (v : Q) :
  (∅ : gmap string Q) !! k = Some v -> (0 <= v)%Q.
Proof. rewrite lookup_empty. discriminate. Qed.

Lemma nonneg_insert (m : gmap string Q) (i : string) (x : Q) :
  (0 <= x)%Q ->
  (forall k v, m !! k = Some v -> (0 <= v)%Q) ->
  forall k v, <[i:=x]> m !! k = Some v -> (0 <= v)%Q.
Proof.
  intros Hx Hm k v. rewrite lookup_insert. case_decide.
  - intros [= <-]. exact Hx.
  - apply Hm.
Qed.


(** Two signals exactly: the weighted formula applies. *)
Example two_signals_score : calculate_churn_risk two_signals = 60.
Proof. vm_compute. reflexivity. Qed.

(** One signal, however large, gives 10. *)
Example one_signal_score :
  calculate_churn_risk (<["rageClicks" := 100%Q]> ∅) = 10.
Proof. vm_compute. reflexivity. Qed.

Lemma identify_root_cause_refines (b : gmap string Q) :
  identify_root_cause b = spec_root_cause b.
Proof.
  unfold identify_root_cause, spec_root_cause, cause_table, Py.ge.
  destruct (Qle_bool 2 (get0 b "rageClicks")),
           (Qle_bool 2 (get0 b "deadClicks")),
           (Qle_bool 15 (get0 b "idleTime")),
           (Qle_bool 3 (get0 b "hesitations")); reflexivity.
Qed.

Lemma identify_root_cause_normal (b : gmap string Q) :
  identify_root_cause b = "Normal user behavior" <->
  (get0 b "rageClicks" < 2)%Q /\ (get0 b "deadClicks" < 2)%Q /\
  (get0 b "idleTime" < 15)%Q /\ (get0 b "hesitations" < 3)%Q.
Proof.
  rewrite <- !ge_false. unfold identify_root_cause.
  destruct (Py.ge (get0 b "rageClicks") 2),
           (Py.ge (get0 b "deadClicks") 2),
           (Py.ge (get0 b "idleTime") 15),
           (Py.ge (get0 b "hesitations") 3); simpl;
    split; try discriminate; try tauto;
    intros (? & ? & ? & ?); discriminate.
Qed.

(** C5. [identify_root_cause] tests rageClicks >= 2, deadClicks >= 2,
    idleTime >= 15 and hesitations >= 3, joins the causes that match with
    [" + "], and returns ["Normal user behavior"] exactly when none matches.
    With idleTime = 15 and every other counter 0 it reports a cause while
    [calculate_churn_risk] returns a capped low score, at most 20. *)
Theorem identify_root_cause_spec :
  (forall b, identify_root_cause b = spec_root_cause b) /\
  (forall b,
     identify_root_cause b = "Normal user behavior" <->
     (get0 b "rageClicks" < 2)%Q /\ (get0 b "deadClicks" < 2)%Q /\
     (get0 b "idleTime" < 15)%Q /\ (get0 b "hesitations" < 3)%Q) /\
  identify_root_cause idle_fifteen =
    "User confusion or distraction (extended idle)" /\
  calculate_churn_risk idle_fifteen = 0 /\
  (exists b : gmap string Q,
     (forall k v, b !! k = Some v -> (0 <= v)%Q) /\
     identify_root_cause b <> "Normal user behavior" /\
     spec_signal_count b < 2 /\
     calculate_churn_risk b <= 20).
Proof.
  split; [exact identify_root_cause_refines|].
  split; [exact identify_root_cause_normal|].
  split; [vm_compute; reflexivity|].
  split; [vm_compute; reflexivity|].
  exists idle_fifteen. split.
  - unfold idle_fifteen. apply nonneg_insert; [lra | apply nonneg_empty].
  - split; [vm_compute; discriminate|]. split; vm_compute; [reflexivity|discriminate].
Qed.

Lemma identify_root_cause_spec_witness :
  identify_root_cause idle_fifteen <> "Normal user behavior" /\
  calculate_churn_risk idle_fifteen <= 20.
Proof.
  destruct identify_root_cause_spec as (_ & _ & H3 & H4 & _).
  rewrite H3, H4. split; [discriminate | lia].
Defined.

End RiskEngine.

(** ** The session store *)

Section StoreFacts.

Context {V : Type}.

Lemma dict_get_set_eq (d : list (string * V)) (k : string) (v : V) :
  dict_get (dict_set d k v) k = Some v.
Proof.
  induction d as [|[k0 v0] d IH]; simpl.
  - now rewrite String.eqb_refl.
  - destruct (String.eqb k0 k) eqn:E; simpl; rewrite E; [reflexivity | exact IH].
Qed.

Lemma dict_get_set_ne (d : list (string * V)) (k k' : string) (v : V) :
  k <> k' -> dict_get (dict_set d k v) k' = dict_get d k'.
Proof.
  intros Hne. induction d as [|[k0 v0] d IH]; simpl.
  - apply String.eqb_neq in Hne. now rewrite Hne.
  - destruct (String.eqb k0 k) eqn:E; simpl.
    + apply String.eqb_eq in E. subst k0.
      apply String.eqb_neq in Hne. now rewrite Hne.
    + destruct (String.eqb k0 k'); [reflexivity | exact IH].
Qed.

End StoreFacts.

Lemma redis_key_inj (a b : string) : redis_key a = redis_key b -> a = b.
Proof.
  unfold redis_key. intros H. cbv [String.append] in H. now inversion H.
Qed.

Lemma store_session_redis_put (st : Store) (sid : string) (s : Session) :
  store_session_redis st sid s = put st sid 300 s.
Proof. reflexivity. Qed.

Lemma redis_client_put (st : Store) (sid : string) (ttl : Z) (s : Session) :
  redis_client (put st sid ttl s) = redis_client st.
Proof. unfold put. now destruct (redis_client st) eqn:E. Qed.

Lemma get_put_eq (st : Store) (sid : string) (ttl : Z) (s : Session) :
  get_session_redis (put st sid ttl s) sid = Some s.
Proof.
  unfold get_session_redis. rewrite redis_client_put.
  unfold put. destruct (redis_client st); simpl.
  - now rewrite dict_get_set_eq.
  - apply dict_get_set_eq.
Qed.

Lemma get_put_ne (st : Store) (sid sid' : string) (ttl : Z) (s : Session) :
  sid <> sid' ->
  get_session_redis (put st sid ttl s) sid' = get_session_redis st sid'.
Proof.
  intros Hne. unfold get_session_redis. rewrite redis_client_put.
  unfold put. destruct (redis_client st); simpl.
  - rewrite dict_get_set_ne; [reflexivity|].
    intros H. apply Hne. now apply redis_key_inj.
  - now apply dict_get_set_ne.
Qed.

(** On Redis the entry carries the expiry given to [put]. *)
Lemma put_ttl (st : Store) (sid : string) (ttl : Z) (s : Session) :
  redis_client st = true ->
  dict_get (redis_db (put st sid ttl s)) (redis_key sid) = Some (ttl, s).
Proof. intros H. unfold put. rewrite H. simpl. apply dict_get_set_eq. Qed.

(** ** Validation *)

Section ValidationFacts.

Lemma validate_session_id_str (v : pyval) :
  validate_session_id v = true ->
  exists s, v = PyStr s /\ s <> "" /\ (String.length s <= 100)%nat /\
            re_match_session_id s = true.
Proof.
  unfold validate_session_id.
  destruct v as [|b|x|s|l|d]; simpl; try (rewrite ?Bool.orb_true_r; discriminate).
  rewrite Bool.orb_false_r.
  destruct (String.eqb s "") eqn:E; simpl; [discriminate|].
  destruct (100 <? String.length s)%nat eqn:L; [discriminate|].
  destruct (re_match_session_id s) eqn:R; simpl; [|discriminate].
  intros _. exists s. apply String.eqb_neq in E. apply Nat.ltb_ge in L.
  repeat split; assumption.
Qed.

(** A request that passes validation carries a string id and a dictionary
    of behaviors that the merging loop accepts. *)
Lemma check_behaviors_merge (items : list (string * pyval)) :
  check_behaviors items = Valid ->
  forall stored, is_Some (merge_behaviors stored items).
Proof.
  induction items as [|[key value] items IH];
    cbn [check_behaviors merge_behaviors]; intros H stored.
  - eauto.
  - destruct (negb (key_in key valid_behaviors)); [discriminate|].
    unfold invalid_value in H.
    destruct (as_number value) as [x|]; [|discriminate].
    destruct (Py.lt x 0); [discriminate|]. now apply IH.
Qed.

Lemma validate_behavior_data_valid (data : TrackData) :
  validate_behavior_data data = Valid ->
  exists sid items,
    req_session_id data = Some (PyStr sid) /\
    req_behaviors data = Some (PyDict items) /\
    validate_session_id (PyStr sid) = true /\
    check_behaviors items = Valid.
Proof.
  unfold validate_behavior_data.
  destruct (req_session_id data) as [v|]; [|discriminate].
  destruct (req_behaviors data) as [bv|]; [|discriminate].
  destruct (validate_session_id v) eqn:Hv; simpl; [|discriminate].
  destruct (validate_session_id_str v Hv) as (sid & -> & _).
  destruct bv as [| | | | |items]; try discriminate.
  intros H. exists sid, items. repeat split; assumption.
Qed.

(** What [track_events] does with a request that passes validation. *)
Lemma track_events_valid (st : Store) (data : TrackData) :
  validate_behavior_data data = Valid ->
  exists sid items merged,
    req_session_id data = Some (PyStr sid) /\
    req_behaviors data = Some (PyDict items) /\
    check_behaviors items = Valid /\
    merge_behaviors
      (behaviors (get_or_create st sid (req_timestamp data))) items = Some merged /\
    fst (track_events st data) =
      put st sid 300
        (update_session (get_or_create st sid (req_timestamp data)) data merged).
Proof.
  intros Hv.
  destruct (validate_behavior_data_valid data Hv) as (sid & items & Hs & Hb & _ & Hc).
  destruct (check_behaviors_merge items Hc
              (behaviors (get_or_create st sid (req_timestamp data))))
    as [merged Hm].
  exists sid, items, merged. repeat split; try assumption.
  unfold track_events. rewrite Hv, Hs, Hb. simpl. rewrite Hm. reflexivity.
Qed.

Lemma track_events_invalid (st : Store) (data : TrackData) (msg : string) :
  validate_behavior_data data = Invalid msg ->
  track_events st data = (st, BadRequest msg).
Proof. intros H. unfold track_events. now rewrite H. Qed.

End ValidationFacts.

(** ** Requests served in sequence *)

Section Sequences.

Lemma get_or_create_some (st : Store) (sid : string) (ts : Z) (s : Session) :
  get_session_redis st sid = Some s -> get_or_create st sid ts = s.
Proof. intros H. unfold get_or_create. now rewrite H. Qed.

Lemma get_or_create_none (st : Store) (sid : string) (ts : Z) :
  get_session_redis st sid = None -> get_or_create st sid ts = new_session sid ts.
Proof. intros H. unfold get_or_create. now rewrite H. Qed.



(** Every handler validates the id before it writes: a request adds no
    session under an id that fails validation. *)
Lemma step_keys (st : Store) (r : Request) (sid : string) :
  is_Some (get_session_redis (step st r) sid) ->
  validate_session_id (PyStr sid) = true \/ is_Some (get_session_redis st sid).
Proof.
  destruct r as [data|data|data]; simpl.
  - destruct (validate_behavior_data data) as [|msg] eqn:Hv.
    + destruct (validate_behavior_data_valid data Hv)
        as (sid1 & items1 & Hs1 & _ & Hvalid & _).
      destruct (track_events_valid st data Hv)
        as (sid0 & items & merged & Hs0 & _ & _ & _ & ->).
      assert (sid1 = sid0) as -> by congruence.
      destruct (String.eqb_spec sid0 sid) as [->|Hne]; [now left|].
      rewrite get_put_ne by assumption. now right.
    + rewrite (track_events_invalid st data msg Hv). now right.
  - unfold mark_intervention.
    destruct (validate_session_id (int_session_id data)) eqn:Hv; simpl;
      [|now right].
    destruct (validate_session_id_str _ Hv) as (sid0 & E & _).
    rewrite E in *.
    destruct (get_session_redis st sid0) as [s0|] eqn:H0; simpl; [|now right].
    rewrite store_session_redis_put.
    destruct (String.eqb_spec sid0 sid) as [->|Hne]; [now left|].
    rewrite get_put_ne by assumption. now right.
  - unfold record_conversion.
    destruct (validate_session_id (conv_session_id data)) eqn:Hv; simpl;
      [|now right].
    destruct (validate_session_id_str _ Hv) as (sid0 & E & _).
    rewrite E in *.
    destruct (get_session_redis st sid0) as [s0|] eqn:H0; simpl; [|now right].
    change (if redis_client st
            then setex st (redis_key sid0) 3600 ?x
            else memory_set st sid0 ?x) with (put st sid0 3600 x).
    destruct (String.eqb_spec sid0 sid) as [->|Hne]; [now left|].
    rewrite get_put_ne by assumption. now right.
Qed.

(** In a store that the server reaches from start-up, every session is
    stored under an id that passes validation. *)
Lemma reachable_ids_valid (redis : bool) (rs : list Request) (sid : string) :
  is_Some (get_session_redis (run (empty_store redis) rs) sid) ->
  validate_session_id (PyStr sid) = true.
Proof.
  induction rs as [|r rs IH] using rev_ind.
  - destruct redis; intros [s H]; discriminate.
  - unfold run in *. rewrite fold_left_app. cbn [fold_left]. intros H.
    destruct (step_keys _ r sid H) as [Hv|Hs]; [exact Hv | now apply IH].
Qed.

End Sequences.

(** ** Behavior counters are high-water marks *)

Section HighWaterMark.

Lemma merge_behaviors_ge (items : list (string * pyval)) :
  forall stored merged,
    merge_behaviors stored items = Some merged ->
    forall key, (get0 stored key <= get0 merged key)%Q.
Proof.
  induction items as [|[k0 v0] items IH]; cbn [merge_behaviors];
    intros stored merged H key.
  - injection H as <-. lra.
  - destruct (as_number v0) as [x|]; [|discriminate].
    apply Qle_trans with (get0 (<[k0 := Py.max (get0 stored k0) x]> stored) key).
    + destruct (String.eqb_spec k0 key) as [->|Hne].
      * rewrite get0_insert_eq. apply max_ge_l.
      * rewrite get0_insert_ne by assumption. lra.
    + now apply IH.
Qed.









End HighWaterMark.

(** ** Mood history *)

Section Mood.








End Mood.

(** ** Intervention and conversion *)

Section Recorder.

Lemma mark_intervention_found (st : Store) (data : InterventionData)
    (sid : string) (s : Session) :
  int_session_id data = PyStr sid ->
  validate_session_id (PyStr sid) = true ->
  get_session_redis st sid = Some s ->
  mark_intervention st data =
    (put st sid 300
       (with_intervention s
          (default "discount_popup" (int_intervention_type data))
          (int_timestamp data)),
     Ok tt).
Proof.
  intros Hid Hv Hs. unfold mark_intervention. rewrite Hid, Hv. simpl.
  now rewrite Hs.
Qed.

Lemma record_conversion_found (st : Store) (data : ConversionData)
    (sid : string) (s : Session) :
  conv_session_id data = PyStr sid ->
  validate_session_id (PyStr sid) = true ->
  get_session_redis st sid = Some s ->
  let paid := default 0%Q (conv_order_value data) in
  record_conversion st data =
    (put st sid 3600 (with_conversion s paid (conv_timestamp data)),
     Ok {| conv_salvaged := is_salvaged s;
           conv_revenue_saved := if is_salvaged s then paid else 0%Q;
           conv_conversion_status :=
             if is_salvaged s then salvaged else converted |}).
Proof.
  intros Hid Hv Hs. unfold record_conversion. rewrite Hid, Hv. simpl.
  now rewrite Hs.
Qed.

Lemma is_salvaged_iff (s : Session) :
  is_salvaged s = true <-> 60 <= risk_score s /\ intervention_triggered s = true.
Proof.
  unfold is_salvaged. rewrite Bool.andb_true_iff, Z.leb_le.
  destruct (intervention_triggered s); simpl; intuition congruence.
Qed.

(** C3. On a session that exists, [record_conversion] takes
    [is_salvaged = risk_score >= 60 and intervention_triggered] from the stored
    session, stores the session with [conversion_status] ["salvaged"] or
    ["converted"] accordingly, with the order value and the time of
    conversion, under an expiry of 3600 seconds, and answers with [salvaged],
    [revenue_saved] (the order value when salvaged, 0 otherwise) and the new
    status. *)
Theorem record_conversion_spec (st : Store) (data : ConversionData)
    (sid : string) (s : Session) :
  conv_session_id data = PyStr sid ->
  validate_session_id (PyStr sid) = true ->
  get_session_redis st sid = Some s ->
  let paid := default 0%Q (conv_order_value data) in
  exists s',
    record_conversion st data =
      (put st sid 3600 s',
       Ok {| conv_salvaged := is_salvaged s;
             conv_revenue_saved := if is_salvaged s then paid else 0%Q;
             conv_conversion_status := conversion_status s' |}) /\
    (is_salvaged s = true <->
     60 <= risk_score s /\ intervention_triggered s = true) /\
    conversion_status s' = (if is_salvaged s then salvaged else converted) /\
    order_value s' = paid /\
    converted_at s' = Some (conv_timestamp data) /\
    get_session_redis (fst (record_conversion st data)) sid = Some s' /\
    (redis_client st = true ->
     dict_get (redis_db (fst (record_conversion st data))) (redis_key sid)
       = Some (3600, s')).
Proof.
  intros Hid Hv Hs paid.
  pose proof (record_conversion_found st data sid s Hid Hv Hs) as H.
  exists (with_conversion s paid (conv_timestamp data)).
  rewrite H. cbn [fst].
  split; [reflexivity|]. split; [apply is_salvaged_iff|].
  split; [reflexivity|]. split; [reflexivity|]. split; [reflexivity|].
  split; [apply get_put_eq|].
  intros Hr. now apply put_ttl.
Qed.

Lemma record_conversion_spec_witness :
  exists s',
    get_session_redis
      (fst (record_conversion
              (run (empty_store true)
                 [Track (high_risk_request "visitor-1" 1000);
                  Intervention (intervention_request "visitor-1" 2000)])
              (conversion_request "visitor-1" 120 3000))) "visitor-1" = Some s' /\
    conversion_status s' = salvaged /\ order_value s' = 120%Q.
Proof.
  set (st := run (empty_store true)
               [Track (high_risk_request "visitor-1" 1000);
                Intervention (intervention_request "visitor-1" 2000)]).
  assert (Hs : exists s, get_session_redis st "visitor-1" = Some s /\
                         is_salvaged s = true).
  { vm_compute. eexists. split; reflexivity. }
  destruct Hs as (s & Hs & Hsal).
  destruct (record_conversion_spec st (conversion_request "visitor-1" 120 3000)
              "visitor-1" s) as (s' & _ & _ & Hstatus & Hpaid & _ & Hget & _).
  - reflexivity.
  - vm_compute. reflexivity.
  - exact Hs.
  - exists s'. split; [exact Hget|]. rewrite Hstatus, Hsal, Hpaid.
    split; reflexivity.
Defined.

(** A score of 75 with an intervention recorded converts as salvaged. *)
Example salvaged_with_intervention :
  snd (record_conversion
         (run (empty_store false)
            [Track (high_risk_request "visitor-1" 1000);
             Intervention (intervention_request "visitor-1" 2000)])
         (conversion_request "visitor-1" 120 3000)) =
  Ok {| conv_salvaged := true; conv_revenue_saved := 120%Q;
        conv_conversion_status := salvaged |}.
Proof. vm_compute. reflexivity. Qed.

(** The same score without an intervention converts as converted. *)
Example converted_without_intervention :
  snd (record_conversion
         (run (empty_store false) [Track (high_risk_request "visitor-1" 1000)])
         (conversion_request "visitor-1" 120 3000)) =
  Ok {| conv_salvaged := false; conv_revenue_saved := 0%Q;
        conv_conversion_status := converted |}.
Proof. vm_compute. reflexivity. Qed.

(** C10. On a session that exists, [mark_intervention] changes no field but
    [intervention_triggered], [intervention_type] and [intervention_time], and
    [record_conversion] no field but [conversion_status], [order_value] and
    [converted_at]; the risk score in particular stays as it was stored. *)
Theorem recorder_frame (st : Store) (sid : string) (s : Session) :
  validate_session_id (PyStr sid) = true ->
  get_session_redis st sid = Some s ->
  (forall data, int_session_id data = PyStr sid ->
     exists s',
       get_session_redis (fst (mark_intervention st data)) sid = Some s' /\
       same_but_intervention s s') /\
  (forall data, conv_session_id data = PyStr sid ->
     exists s',
       get_session_redis (fst (record_conversion st data)) sid = Some s' /\
       same_but_conversion s s').
Proof.
  intros Hv Hs. split; intros data Hid.
  - rewrite (mark_intervention_found st data sid s Hid Hv Hs). cbn [fst].
    rewrite get_put_eq. eexists. split; [reflexivity|].
    unfold same_but_intervention. cbn. tauto.
  - rewrite (record_conversion_found st data sid s Hid Hv Hs). cbn [fst].
    rewrite get_put_eq. eexists. split; [reflexivity|].
    unfold same_but_conversion. cbn. tauto.
Qed.

Lemma recorder_frame_witness :
  exists s s',
    get_session_redis
      (run (empty_store false) [Track (high_risk_request "visitor-1" 1000)])
      "visitor-1" = Some s /\
    get_session_redis
      (fst (mark_intervention
              (run (empty_store false) [Track (high_risk_request "visitor-1" 1000)])
              (intervention_request "visitor-1" 2000))) "visitor-1" = Some s' /\
    risk_score s' = risk_score s /\ behaviors s' = behaviors s.
Proof.
  set (st := run (empty_store false) [Track (high_risk_request "visitor-1" 1000)]).
  assert (Hs : exists s, get_session_redis st "visitor-1" = Some s).
  { vm_compute. eexists. reflexivity. }
  destruct Hs as (s & Hs).
  destruct (recorder_frame st "visitor-1" s) as [Hmark _].
  - vm_compute. reflexivity.
  - exact Hs.
  - destruct (Hmark (intervention_request "visitor-1" 2000) eq_refl)
      as (s' & Hget & Hsame).
    exists s, s'. split; [exact Hs|]. split; [exact Hget|].
    unfold same_but_intervention in Hsame. tauto.
Defined.

End Recorder.

(** ** Conversion status over sequences of requests *)

Section ConversionStatusFacts.






End ConversionStatusFacts.

(** ** Rejected requests *)

Section Rejections.

Lemma key_in_iff (key : string) (l : list string) :
  key_in key l = true <-> In key l.
Proof.
  unfold key_in. rewrite existsb_exists. split.
  - intros (x & Hx & E). apply String.eqb_eq in E. now subst.
  - intros H. exists key. split; [assumption | apply String.eqb_refl].
Qed.









(** An id that ends in a line feed passes the validator: [$] matches before
    a final line feed. *)
Example final_line_feed_accepted :
  validate_session_id (PyStr ("visitor-1" ++ LF)) = true /\
  exists s,
    get_session_redis
      (fst (track_events (empty_store false)
              (single_delta ("visitor-1" ++ LF) 1000 "rageClicks" 1)))
      ("visitor-1" ++ LF) = Some s.
Proof. vm_compute. split; [reflexivity|]. eexists. reflexivity. Qed.

(** JSON [true] passes the validator as a number. *)
Example boolean_value_accepted :
  check_behaviors [("rageClicks", PyBool true)] = Valid.
Proof. vm_compute. reflexivity. Qed.

End Rejections.

(** ** Dashboard listing *)

Section Listing.

Lemma live_seconds (now : Z) (s : Session) :
  Py.lt (last_active_seconds now s) 300 = live now s.
Proof.
  unfold live, last_active_seconds.
  destruct (now - last_active s <? 300000) eqn:E.
  - apply lt_true. apply Z.ltb_lt in E.
    apply Qlt_shift_div_r; [reflexivity|].
    change (300 * 1000)%Q with (inject_Z 300000).
    now rewrite <- Zlt_Qlt.
  - apply lt_false. apply Z.ltb_ge in E.
    apply Qle_shift_div_l; [reflexivity|].
    change (300 * 1000)%Q with (inject_Z 300000).
    now rewrite <- Zle_Qle.
Qed.

Lemma collect_active_filter (now : Z) (l : list Session) :
  collect_active now l = List.map (summary now) (List.filter (live now) l).
Proof.
  induction l as [|s l IH]; cbn [collect_active List.filter List.map].
  - reflexivity.
  - rewrite live_seconds. destruct (live now s); cbn [List.map]; now rewrite IH.
Qed.

Lemma insert_by_risk_perm (x : Summary) (l : list Summary) :
  Permutation (insert_by_risk x l) (x :: l).
Proof.
  induction l as [|y l IH]; cbn [insert_by_risk].
  - reflexivity.
  - destruct (sum_risk_score x <? sum_risk_score y).
    + rewrite IH. apply perm_swap.
    + reflexivity.
Qed.

Lemma sort_by_risk_desc_perm (l : list Summary) :
  Permutation (sort_by_risk_desc l) l.
Proof.
  induction l as [|x l IH]; cbn [sort_by_risk_desc].
  - reflexivity.
  - rewrite insert_by_risk_perm. now rewrite IH.
Qed.







Lemma get_all_sessions_sessions (st : Store) (now : Z) :
  sessions (get_all_sessions st now) =
  sort_by_risk_desc
    (List.map (summary now) (List.filter (live now) (get_all_sessions_redis st))).
Proof. unfold get_all_sessions. cbn [sessions]. now rewrite collect_active_filter. Qed.



End Listing.

(** ** Salvage statistics *)

Section Statistics.











(** No rate is computed when there is no high-risk session. *)
Example no_high_risk_session :
  (salvage_rate
     (get_salvage_stats
        (run (empty_store false) [Track (mood_request "calm" 1000 "happy")]))
   == 0)%Q.
Proof. vm_compute. reflexivity. Qed.

End Statistics.

(** * Further properties *)

(** ** The validators, characterised *)

Section Validators.

Lemma append_cons (c : ascii) (s t : string) :
  String c s ++ t = String c (s ++ t).
Proof. reflexivity. Qed.

Lemma append_empty_r (s : string) : s ++ "" = s.
Proof.
  induction s as [|c s IH]; [reflexivity|]. now rewrite append_cons, IH.
Qed.

Lemma length_append (s t : string) :
  String.length (s ++ t) = (String.length s + String.length t)%nat.
Proof.
  induction s as [|c s IH]; [reflexivity|].
  rewrite append_cons. cbn [String.length Nat.add]. now rewrite IH.
Qed.

(** The longest run of class characters splits the string. *)
Lemma skip_id_chars_split (s : string) :
  exists p, s = p ++ skip_id_chars s /\ all_id_chars p = true.
Proof.
  induction s as [|c s (p & Hs & Hp)]; cbn [skip_id_chars].
  - exists "". split; reflexivity.
  - destruct (is_id_char c) eqn:Hc.
    + exists (String c p). split.
      * rewrite append_cons. now rewrite <- Hs.
      * unfold all_id_chars in *. cbn [list_ascii_of_string forallb].
        now rewrite Hc, Hp.
    + exists "". split; reflexivity.
Qed.

Lemma skip_id_chars_app (p t : string) :
  all_id_chars p = true -> skip_id_chars (p ++ t) = skip_id_chars t.
Proof.
  unfold all_id_chars.
  induction p as [|c p IH]; [reflexivity|].
  rewrite append_cons. cbn [list_ascii_of_string forallb skip_id_chars].
  intros H. apply Bool.andb_true_iff in H as [Hc Hp].
  rewrite Hc. now apply IH.
Qed.

Lemma re_match_session_id_iff (s : string) :
  re_match_session_id s = true <->
  exists p, (s = p \/ s = p ++ LF) /\ p <> "" /\ all_id_chars p = true.
Proof.
  unfold re_match_session_id. rewrite Bool.andb_true_iff, Bool.negb_true_iff,
    Bool.orb_true_iff, String.eqb_neq, !String.eqb_eq.
  split.
  - intros [Hne Hrest]. destruct (skip_id_chars_split s) as (p & Hs & Hp).
    exists p. split; [|split; [|exact Hp]].
    + destruct Hrest as [E|E]; rewrite E in Hs.
      * left. now rewrite append_empty_r in Hs.
      * now right.
    + intros ->. apply Hne. now rewrite Hs at 2.
  - intros (p & Hs & Hne & Hp).
    assert (Hlen : (0 < String.length p)%nat)
      by (destruct p; [contradiction | simpl; lia]).
    destruct Hs as [->| ->].
    + rewrite <- (append_empty_r p) at 1 3.
      rewrite skip_id_chars_app by assumption. cbn [skip_id_chars].
      split; [|now left]. intros E. now subst p.
    + rewrite skip_id_chars_app by assumption.
      change (skip_id_chars LF) with LF. split; [|now right].
      intros E. apply (f_equal String.length) in E.
      rewrite length_append in E. simpl in E. lia.
Qed.

(** X1. [validate_session_id] accepts exactly the strings of at most 100
    characters that are a non-empty run of characters of [[a-zA-Z0-9_-]],
    followed or not by one line feed. *)
Theorem validate_session_id_iff (v : pyval) :
  validate_session_id v = true <->
  exists s p,
    v = PyStr s /\ (s = p \/ s = p ++ LF) /\ p <> "" /\
    all_id_chars p = true /\ (String.length s <= 100)%nat.
Proof.
  split.
  - intros H. destruct (validate_session_id_str v H) as (s & -> & _ & Hlen & Hre).
    apply re_match_session_id_iff in Hre as (p & Hs & Hne & Hp).
    exists s, p. repeat split; assumption.
  - intros (s & p & -> & Hs & Hne & Hp & Hlen).
    assert (Hre : re_match_session_id s = true)
      by (apply re_match_session_id_iff; now exists p).
    unfold validate_session_id. cbn [truthy is_str negb].
    rewrite Bool.orb_false_r.
    destruct (String.eqb_spec s "") as [->|_].
    + destruct Hs as [<-|E]; [contradiction|].
      destruct p; [contradiction | discriminate].
    + cbn [negb]. apply Nat.ltb_ge in Hlen. now rewrite Hlen, Hre.
Qed.

Lemma validate_session_id_iff_witness :
  validate_session_id (PyStr "visitor_7-b") = true.
Proof.
  apply (proj2 (validate_session_id_iff (PyStr "visitor_7-b"))).
  exists "visitor_7-b", "visitor_7-b".
  split; [reflexivity|]. split; [now left|]. split; [discriminate|].
  split; [reflexivity | simpl; lia].
Defined.

Lemma check_behaviors_iff (items : list (string * pyval)) :
  check_behaviors items = Valid <-> Forall good_entry items.
Proof.
  induction items as [|[key value] items IH]; cbn [check_behaviors].
  - split; [constructor | reflexivity].
  - destruct (key_in key valid_behaviors) eqn:Hk; cbn [negb].
    + destruct (invalid_value value) eqn:Hv.
      * split; [discriminate|]. intros H. apply Forall_inv in H as [_ (x & Hx & Hpos)].
        unfold invalid_value in Hv. cbn [snd] in Hx. rewrite Hx in Hv.
        apply lt_true in Hv. lra.
      * rewrite IH. split.
        -- intros H. constructor; [|exact H]. split.
           ++ now apply key_in_iff.
           ++ unfold invalid_value in Hv. cbn [snd].
              destruct (as_number value) as [x|]; [|discriminate].
              exists x. split; [reflexivity | now apply lt_false].
        -- intros H. now apply Forall_inv_tail in H.
    + split; [discriminate|]. intros H. apply Forall_inv in H as [Hin _].
      apply key_in_iff in Hin. cbn [fst] in Hin. congruence.
Qed.

(** X2. [validate_behavior_data] accepts exactly the requests with a
    [session_id] that passes [validate_session_id] and a [behaviors] object
    (possibly empty) whose every key is one of the sixteen names and whose
    every value is a number not below zero. *)
Theorem validate_behavior_data_iff (data : TrackData) :
  validate_behavior_data data = Valid <->
  exists sid items,
    req_session_id data = Some (PyStr sid) /\
    validate_session_id (PyStr sid) = true /\
    req_behaviors data = Some (PyDict items) /\
    Forall good_entry items.
Proof.
  split.
  - intros H.
    destruct (validate_behavior_data_valid data H) as (sid & items & Hs & Hb & Hv & Hc).
    exists sid, items. repeat split; try assumption. now apply check_behaviors_iff.
  - intros (sid & items & Hs & Hv & Hb & Hall).
    unfold validate_behavior_data. rewrite Hs, Hb, Hv. cbn [negb].
    now apply check_behaviors_iff.
Qed.

Lemma validate_behavior_data_iff_witness :
  validate_behavior_data (mood_request "visitor-1" 1000 "happy") = Valid.
Proof.
  apply (proj2 (validate_behavior_data_iff (mood_request "visitor-1" 1000 "happy"))).
  exists "visitor-1", []. split; [reflexivity|]. split; [vm_compute; reflexivity|].
  split; [reflexivity | constructor].
Defined.

End Validators.

(** ** The score: its gap, its growth, and the cause that comes with it *)

Section ScoreFacts.

Lemma crossed_cases (a t : Q) :
  (t <= a)%Q /\ crossed a t = 1 \/ (a < t)%Q /\ crossed a t = 0.
Proof.
  unfold crossed. destruct (Qle_bool t a) eqn:E.
  - left. split; [now apply Qle_bool_iff | reflexivity].
  - right. split; [|reflexivity]. apply Qnot_le_lt. intros H.
    apply Qle_bool_iff in H. congruence.
Qed.

Lemma crossed_mono (a a' t : Q) : (a <= a')%Q -> crossed a t <= crossed a' t.
Proof.
  intros H. destruct (crossed_cases a t) as [[H1 ->]|[H1 ->]];
    destruct (crossed_cases a' t) as [[H2 ->]|[H2 ->]]; try lia. lra.
Qed.

Lemma half_double (x : Q) : (x / 2 * 2 == x)%Q.
Proof. field. Qed.

(** Name the half of the idle time, for linear arithmetic. *)
Ltac name_half b :=
  let E := fresh "Ehalf" in
  pose proof (half_double (get0 b "idleTime")) as E;
  let h := fresh "half" in
  set (h := (get0 b "idleTime" / 2)%Q) in *; clearbody h.

(** With two thresholds crossed the weighted sum is 27 or more: the two
    cheapest signals are six jiggles (12) and three hesitations (15). *)
Lemma two_signals_weigh_27 (b : gmap string Q) :
  (forall k, In k scored_counters -> (0 <= get0 b k)%Q) ->
  2 <= spec_signal_count b ->
  (27 <= spec_weighted_sum b)%Q.
Proof.
  intros Hpos. unfold spec_signal_count, spec_weighted_sum.
  pose proof (Hpos "rageClicks") as Hr. pose proof (Hpos "deadClicks") as Hd.
  pose proof (Hpos "hesitations") as Hh. pose proof (Hpos "idleTime") as Hi.
  pose proof (Hpos "mouseJiggles") as Hj.
  unfold scored_counters in Hr, Hd, Hh, Hi, Hj. simpl in Hr, Hd, Hh, Hi, Hj.
  assert (Hr' := Hr ltac:(tauto)). assert (Hd' := Hd ltac:(tauto)).
  assert (Hh' := Hh ltac:(tauto)). assert (Hi' := Hi ltac:(tauto)).
  assert (Hj' := Hj ltac:(tauto)). clear Hr Hd Hh Hi Hj Hpos.
  name_half b.
  destruct (Q.min_spec half 15) as [[Hm ->]|[Hm ->]];
  destruct (crossed_cases (get0 b "rageClicks") 2) as [[H1 ->]|[H1 ->]];
  destruct (crossed_cases (get0 b "deadClicks") 2) as [[H2 ->]|[H2 ->]];
  destruct (crossed_cases (get0 b "hesitations") 3) as [[H3 ->]|[H3 ->]];
  destruct (crossed_cases (get0 b "idleTime") 20) as [[H4 ->]|[H4 ->]];
  destruct (crossed_cases (get0 b "mouseJiggles") 6) as [[H5 ->]|[H5 ->]];
  intros Hc; try lia; lra.
Qed.

Lemma spec_signal_count_mono (b b' : gmap string Q) :
  (forall k, In k scored_counters -> (get0 b k <= get0 b' k)%Q) ->
  spec_signal_count b <= spec_signal_count b'.
Proof.
  intros H. unfold spec_signal_count.
  pose proof (crossed_mono _ _ 2 (H "rageClicks" ltac:(simpl; tauto))).
  pose proof (crossed_mono _ _ 2 (H "deadClicks" ltac:(simpl; tauto))).
  pose proof (crossed_mono _ _ 3 (H "hesitations" ltac:(simpl; tauto))).
  pose proof (crossed_mono _ _ 20 (H "idleTime" ltac:(simpl; tauto))).
  pose proof (crossed_mono _ _ 6 (H "mouseJiggles" ltac:(simpl; tauto))).
  lia.
Qed.

Lemma spec_weighted_sum_mono (b b' : gmap string Q) :
  (forall k, In k scored_counters -> (get0 b k <= get0 b' k)%Q) ->
  (spec_weighted_sum b <= spec_weighted_sum b')%Q.
Proof.
  intros H. unfold spec_weighted_sum.
  pose proof (H "rageClicks" ltac:(simpl; tauto)).
  pose proof (H "deadClicks" ltac:(simpl; tauto)).
  pose proof (H "hesitations" ltac:(simpl; tauto)).
  pose proof (H "idleTime" ltac:(simpl; tauto)).
  pose proof (H "mouseJiggles" ltac:(simpl; tauto)).
  name_half b. name_half b'.
  destruct (Q.min_spec half 15) as [[Hm ->]|[Hm ->]];
    destruct (Q.min_spec half0 15) as [[Hm' ->]|[Hm' ->]];
    lra.
Qed.

Lemma spec_weighted_sum_nonneg5 (b : gmap string Q) :
  (forall k, In k scored_counters -> (0 <= get0 b k)%Q) ->
  (0 <= spec_weighted_sum b)%Q.
Proof.
  intros H. unfold spec_weighted_sum.
  pose proof (H "rageClicks" ltac:(simpl; tauto)).
  pose proof (H "deadClicks" ltac:(simpl; tauto)).
  pose proof (H "hesitations" ltac:(simpl; tauto)).
  pose proof (H "idleTime" ltac:(simpl; tauto)).
  pose proof (H "mouseJiggles" ltac:(simpl; tauto)).
  name_half b.
  destruct (Q.min_spec half 15) as [[Hm ->]|[Hm ->]]; lra.
Qed.

(** The score written with the weighted sum of the specification. *)
Lemma calculate_churn_risk_cases (b : gmap string Q) :
  spec_signal_count b < 2 /\
    calculate_churn_risk b = Z.min 20 (spec_signal_count b * 10) \/
  2 <= spec_signal_count b /\
    calculate_churn_risk b = Z.min 100 (Py.int (spec_weighted_sum b)).
Proof.
  rewrite calculate_churn_risk_unfold.
  destruct (spec_signal_count b <? 2) eqn:E.
  - left. apply Z.ltb_lt in E. split; [exact E | reflexivity].
  - right. apply Z.ltb_ge in E. split; [exact E|].
    now rewrite (int_compat _ _ (weighted_sum_eq b)).
Qed.

Lemma score_gap_five (b : gmap string Q) :
  (forall k, In k scored_counters -> (0 <= get0 b k)%Q) ->
  (spec_signal_count b < 2 ->
   calculate_churn_risk b = spec_signal_count b * 10 /\
   (calculate_churn_risk b = 0 \/ calculate_churn_risk b = 10)) /\
  (2 <= spec_signal_count b -> 27 <= calculate_churn_risk b <= 100).
Proof.
  intros Hpos. pose proof (spec_signal_count_range b) as Hr.
  destruct (calculate_churn_risk_cases b) as [[Hc ->]|[Hc ->]]; split; intros H;
    try lia.
  pose proof (two_signals_weigh_27 b Hpos Hc) as Hw.
  assert (Py.int 27 <= Py.int (spec_weighted_sum b)) by (apply int_le; lra).
  change (Py.int 27) with 27 in *. lia.
Qed.




Lemma calculate_churn_risk_mono_five (b b' : gmap string Q) :
  (forall k, In k scored_counters -> (0 <= get0 b k)%Q) ->
  (forall k, In k scored_counters -> (get0 b k <= get0 b' k)%Q) ->
  calculate_churn_risk b <= calculate_churn_risk b'.
Proof.
  intros Hpos Hle.
  assert (Hpos' : forall k, In k scored_counters -> (0 <= get0 b' k)%Q).
  { intros k Hk. specialize (Hpos k Hk). specialize (Hle k Hk). lra. }
  pose proof (spec_signal_count_mono b b' Hle) as Hc.
  pose proof (spec_signal_count_range b) as Hr.
  destruct (score_gap_five b Hpos) as [Hlow Hhigh].
  destruct (score_gap_five b' Hpos') as [Hlow' Hhigh'].
  destruct (Z_lt_le_dec (spec_signal_count b) 2) as [H|H].
  - destruct (Hlow H) as [E _].
    destruct (Z_lt_le_dec (spec_signal_count b') 2) as [H'|H'].
    + destruct (Hlow' H') as [E' _]. lia.
    + specialize (Hhigh' H'). lia.
  - assert (H' : 2 <= spec_signal_count b') by lia.
    destruct (calculate_churn_risk_cases b) as [[? _]|[_ ->]]; [lia|].
    destruct (calculate_churn_risk_cases b') as [[? _]|[_ ->]]; [lia|].
    assert (Py.int (spec_weighted_sum b) <= Py.int (spec_weighted_sum b')).
    { apply int_le; [now apply spec_weighted_sum_nonneg5|].
      now apply spec_weighted_sum_mono. }
    lia.
Qed.



(** X5. A score above 10 always comes with a cause: when
    [calculate_churn_risk] returns more than 10, [identify_root_cause] on the
    same counters does not return ["Normal user behavior"]. *)
Theorem scored_session_has_cause (b : gmap string Q) :
  10 < calculate_churn_risk b ->
  identify_root_cause b <> "Normal user behavior".
Proof.
  intros Hrisk Hnormal.
  apply identify_root_cause_normal in Hnormal as (Hr & Hd & Hi & Hh).
  pose proof (spec_signal_count_range b) as Hrange.
  destruct (calculate_churn_risk_cases b) as [[Hc E]|[Hc _]]; [lia|].
  revert Hc. unfold spec_signal_count.
  destruct (crossed_cases (get0 b "rageClicks") 2) as [[H1 ->]|[H1 ->]];
  destruct (crossed_cases (get0 b "deadClicks") 2) as [[H2 ->]|[H2 ->]];
  destruct (crossed_cases (get0 b "hesitations") 3) as [[H3 ->]|[H3 ->]];
  destruct (crossed_cases (get0 b "idleTime") 20) as [[H4 ->]|[H4 ->]];
  destruct (crossed_cases (get0 b "mouseJiggles") 6) as [[H5 ->]|[H5 ->]];
  intros Hc; try lia; lra.
Qed.

Lemma scored_session_has_cause_witness :
  identify_root_cause two_signals <> "Normal user behavior".
Proof.
  apply (scored_session_has_cause two_signals). vm_compute. reflexivity.
Defined.

End ScoreFacts.

(** ** The store: round trip and scan *)

Section StoreScan.

Lemma dict_get_In {V : Type} (d : list (string * V)) (k : string) (v : V) :
  dict_get d k = Some v -> In (k, v) d.
Proof.
  induction d as [|[k0 v0] d IH]; cbn [dict_get]; [discriminate|].
  destruct (String.eqb_spec k0 k) as [->|_].
  - intros [= ->]. now left.
  - intros H. right. now apply IH.
Qed.

Lemma dict_set_In {V : Type} (d : list (string * V)) (k : string) (v : V) :
  In (k, v) (dict_set d k v).
Proof.
  induction d as [|[k0 v0] d IH]; cbn [dict_set]; [now left|].
  destruct (String.eqb_spec k0 k) as [->|_]; [now left | now right].
Qed.

Lemma dict_set_In_inv {V : Type} (d : list (string * V)) (k : string) (v : V)
    (x : string * V) :
  In x (dict_set d k v) -> x = (k, v) \/ In x d.
Proof.
  induction d as [|[k0 v0] d IH]; cbn [dict_set].
  - intros [<-|[]]. now left.
  - destruct (String.eqb_spec k0 k) as [->|_].
    + intros [<-|H]; [now left | right; now right].
    + intros [<-|H]; [right; now left|].
      destruct (IH H) as [->|H']; [now left | right; now right].
Qed.

(** The keys after an assignment: the same for a key that is there, one more
    at the end for a new key. *)
Lemma dict_set_keys {V : Type} (d : list (string * V)) (k : string) (v : V) :
  List.map fst (dict_set d k v) =
  match dict_get d k with
  | Some _ => List.map fst d
  | None => (List.map fst d ++ [k])%list
  end.
Proof.
  induction d as [|[k0 v0] d IH]; cbn [dict_set dict_get]; [reflexivity|].
  destruct (String.eqb_spec k0 k) as [->|_]; [reflexivity|].
  cbn [List.map fst]. rewrite IH. now destruct (dict_get d k).
Qed.

Lemma redis_key_prefix (sid : string) :
  String.prefix "session:" (redis_key sid) = true.
Proof. unfold redis_key. cbv [String.append]. now destruct sid. Qed.

Lemma get_in_all (st : Store) (sid : string) (s : Session) :
  get_session_redis st sid = Some s -> In s (get_all_sessions_redis st).
Proof.
  unfold get_session_redis, get_all_sessions_redis.
  destruct (redis_client st).
  - destruct (dict_get (redis_db st) (redis_key sid)) as [[ttl s0]|] eqn:E;
      [|discriminate].
    intros [= <-]. apply dict_get_In in E.
    apply (in_map (fun kv => snd (snd kv)) _ (redis_key sid, (ttl, s0))).
    apply filter_In. split; [exact E | apply redis_key_prefix].
  - intros H. apply dict_get_In in H.
    now apply (in_map snd _ (sid, s)).
Qed.

Lemma put_in_all (st : Store) (sid : string) (ttl : Z) (s : Session) :
  In s (get_all_sessions_redis (put st sid ttl s)).
Proof. apply (get_in_all _ sid). apply get_put_eq. Qed.

Lemma in_all_put (st : Store) (sid : string) (ttl : Z) (s x : Session) :
  In x (get_all_sessions_redis (put st sid ttl s)) ->
  x = s \/ In x (get_all_sessions_redis st).
Proof.
  unfold get_all_sessions_redis, put. destruct (redis_client st) eqn:E;
    cbn [redis_client setex memory_set redis_db sessions_memory]; rewrite ?E.
  - intros H. apply in_map_iff in H as ([k [t y]] & <- & H).
    apply filter_In in H as [H Hp].
    apply dict_set_In_inv in H as [[= -> -> ->]|H]; [now left|]. right.
    apply (in_map (fun kv => snd (snd kv)) _ (k, (t, y))).
    apply filter_In. now split.
  - intros H. apply in_map_iff in H as ([k y] & <- & H).
    apply dict_set_In_inv in H as [[= -> ->]|H]; [now left|]. right.
    now apply (in_map snd _ (k, y)).
Qed.

Lemma filter_keys_length {V : Type} (f : string -> bool) (d d' : list (string * V)) :
  List.map fst d = List.map fst d' ->
  List.length (List.filter (fun kv => f (fst kv)) d) =
  List.length (List.filter (fun kv => f (fst kv)) d').
Proof.
  revert d'. induction d as [|[k v] d IH]; intros [|[k' v'] d'];
    cbn [List.map fst List.filter]; try discriminate; [reflexivity|].
  intros [= -> H]. destruct (f k'); cbn [List.length]; now rewrite (IH d' H).
Qed.

Lemma filter_keys_snoc {V : Type} (f : string -> bool) (d d' : list (string * V))
    (k : string) :
  f k = true ->
  List.map fst d' = (List.map fst d ++ [k])%list ->
  List.length (List.filter (fun kv => f (fst kv)) d') =
  S (List.length (List.filter (fun kv => f (fst kv)) d)).
Proof.
  intros Hk. revert d'. induction d as [|[k0 v0] d IH]; intros [|[k' v'] d'];
    cbn [List.map fst List.filter app]; try discriminate.
  - intros [= -> H]. rewrite Hk. destruct d'; [reflexivity | discriminate].
  - intros [= -> H]. destruct (f k0); cbn [List.length]; now rewrite (IH d' H).
Qed.

Lemma put_all_length (st : Store) (sid : string) (ttl : Z) (s : Session) :
  List.length (get_all_sessions_redis (put st sid ttl s)) =
  match get_session_redis st sid with
  | Some _ => List.length (get_all_sessions_redis st)
  | None => S (List.length (get_all_sessions_redis st))
  end.
Proof.
  unfold get_all_sessions_redis, get_session_redis, put.
  destruct (redis_client st) eqn:E;
    cbn [redis_client setex memory_set redis_db sessions_memory]; rewrite ?E.
  - rewrite !length_map.
    pose proof (dict_set_keys (redis_db st) (redis_key sid) (ttl, s)) as Hk.
    destruct (dict_get (redis_db st) (redis_key sid)) as [v|]; cbn [fmap option_fmap option_map].
    + now apply (filter_keys_length (String.prefix "session:")).
    + apply (filter_keys_snoc (String.prefix "session:") _ _ (redis_key sid));
        [apply redis_key_prefix | exact Hk].
  - rewrite !length_map.
    pose proof (dict_set_keys (sessions_memory st) sid s) as Hk.
    apply (f_equal (@List.length string)) in Hk.
    destruct (dict_get (sessions_memory st) sid);
      rewrite ?length_app, !length_map in Hk; rewrite Hk;
      cbn [List.length]; lia.
Qed.

(** X6. What [store_session_redis] writes, [get_session_redis] reads back
    under the same id; the sessions under the other ids are as before; the
    scan [get_all_sessions_redis] holds the written session, and holds one
    session more than before exactly when the id was not in the store. *)
Theorem store_round_trip (st : Store) (sid : string) (s : Session) :
  get_session_redis (store_session_redis st sid s) sid = Some s /\
  (forall sid', sid <> sid' ->
     get_session_redis (store_session_redis st sid s) sid'
       = get_session_redis st sid') /\
  In s (get_all_sessions_redis (store_session_redis st sid s)) /\
  List.length (get_all_sessions_redis (store_session_redis st sid s)) =
    match get_session_redis st sid with
    | Some _ => List.length (get_all_sessions_redis st)
    | None => S (List.length (get_all_sessions_redis st))
    end.
Proof.
  rewrite store_session_redis_put.
  split; [apply get_put_eq|]. split; [intros sid' H; now apply get_put_ne|].
  split; [apply put_in_all | apply put_all_length].
Qed.

Lemma store_round_trip_witness :
  get_session_redis
    (store_session_redis (empty_store true) "visitor-1"
       (new_session "visitor-1" 1000)) "visitor-2" = None.
Proof.
  destruct (store_round_trip (empty_store true) "visitor-1"
              (new_session "visitor-1" 1000)) as (_ & H & _).
  rewrite (H "visitor-2"); [reflexivity | discriminate].
Defined.

End StoreScan.

(** ** What a request does to the store *)

Section Reachability.

(** A request leaves the store as it is, or writes one session, under the id
    it names, which passed validation, with the expiry of its handler: the
    session it found there, changed by its handler, or a session made new. *)
Lemma step_put (st : Store) (r : Request) :
  step st r = st \/
  exists sid s',
    request_id r = PyStr sid /\
    validate_session_id (PyStr sid) = true /\
    step st r = put st sid (request_ttl r) s' /\
    ((exists s, get_session_redis st sid = Some s /\ session_step r s s') \/
     get_session_redis st sid = None /\ created r sid s').
Proof.
  destruct r as [data|data|data]; cbn [step request_id request_ttl].
  - destruct (validate_behavior_data data) as [|msg] eqn:Hv.
    + right.
      destruct (validate_behavior_data_valid data Hv)
        as (sid & items & Hs & Hb & Hvalid & Hc).
      destruct (track_events_valid st data Hv)
        as (sid0 & items0 & merged & Hs0 & Hb0 & _ & Hm & ->).
      assert (sid0 = sid) as -> by congruence.
      assert (items0 = items) as -> by congruence.
      exists sid. eexists. rewrite Hs. split; [reflexivity|].
      split; [exact Hvalid|]. split; [reflexivity|].
      destruct (get_session_redis st sid) as [s|] eqn:Hget.
      * left. exists s. split; [reflexivity|].
        rewrite (get_or_create_some _ _ _ _ Hget) in *.
        now apply step_track with items.
      * right. split; [reflexivity|].
        rewrite (get_or_create_none _ _ _ Hget) in *.
        now apply created_by_track with items.
    + left. now rewrite (track_events_invalid st data msg Hv).
  - unfold mark_intervention.
    destruct (validate_session_id (int_session_id data)) eqn:Hv; cbn [negb];
      [|now left].
    destruct (validate_session_id_str _ Hv) as (sid & E & _).
    rewrite E in *.
    destruct (get_session_redis st sid) as [s|] eqn:Hget; [|now left].
    right. exists sid. eexists. split; [reflexivity|]. split; [exact Hv|].
    split; [reflexivity|]. left. exists s. split; [exact Hget | constructor].
  - unfold record_conversion.
    destruct (validate_session_id (conv_session_id data)) eqn:Hv; cbn [negb];
      [|now left].
    destruct (validate_session_id_str _ Hv) as (sid & E & _).
    rewrite E in *.
    destruct (get_session_redis st sid) as [s|] eqn:Hget; [|now left].
    right. exists sid. eexists. split; [reflexivity|]. split; [exact Hv|].
    split; [reflexivity|]. left. exists s. split; [exact Hget | constructor].
Qed.

(** Where a stored session comes from: the session that was under its id
    before the request, changed by at most the handler, or a session the
    request made new. *)
Lemma step_origin (st : Store) (r : Request) (sid : string) (s' : Session) :
  get_session_redis (step st r) sid = Some s' ->
  (exists s, get_session_redis st sid = Some s /\ session_step r s s') \/
  get_session_redis st sid = None /\ created r sid s'.
Proof.
  intros H. destruct (step_put st r) as [E|(sid0 & s0 & _ & _ & E & Ho)];
    rewrite E in H.
  - left. exists s'. split; [exact H | constructor].
  - destruct (String.eqb_spec sid0 sid) as [->|Hne].
    + rewrite get_put_eq in H. injection H as ->. exact Ho.
    + rewrite get_put_ne in H by assumption.
      left. exists s'. split; [exact H | constructor].
Qed.

(** A property of sessions that every new session has and every handler
    keeps holds for every session stored under an id in a reachable store. *)
Lemma reachable_get (P : string -> Session -> Prop) :
  (forall r sid s, created r sid s -> P sid s) ->
  (forall r sid s s', session_step r s s' -> P sid s -> P sid s') ->
  forall st sid s,
    reachable st -> get_session_redis st sid = Some s -> P sid s.
Proof.
  intros Hnew Hkeep st sid s (redis & rs & ->). revert sid s.
  induction rs as [|r rs IH] using rev_ind; intros sid s.
  - destruct redis; discriminate.
  - unfold run in *. rewrite fold_left_app. cbn [fold_left]. intros H.
    apply step_origin in H as [(s0 & H0 & Hstep)|[_ Hc]].
    + apply (Hkeep r sid s0 s Hstep). now apply IH.
    + now apply (Hnew r).
Qed.

(** The same for the sessions of the scan. *)
Lemma reachable_all (P : Session -> Prop) :
  (forall r sid s, created r sid s -> P s) ->
  (forall r s s', session_step r s s' -> P s -> P s') ->
  forall st, reachable st -> Forall P (get_all_sessions_redis st).
Proof.
  intros Hnew Hkeep st (redis & rs & ->).
  induction rs as [|r rs IH] using rev_ind.
  - destruct redis; constructor.
  - unfold run in *. rewrite fold_left_app. cbn [fold_left].
    set (st := fold_left step rs (empty_store redis)) in *.
    destruct (step_put st r) as [E|(sid & s' & _ & _ & E & Ho)]; rewrite E.
    + exact IH.
    + apply List.Forall_forall. intros x Hx.
      apply in_all_put in Hx as [->|Hx].
      * destruct Ho as [(s & Hs & Hstep)|[_ Hc]].
        -- apply (Hkeep r s s' Hstep).
           apply (proj1 (List.Forall_forall P _) IH). now apply (get_in_all st sid).
        -- now apply (Hnew r sid).
      * now apply (proj1 (List.Forall_forall P _) IH).
Qed.

Lemma reachable_run (st : Store) (rs : list Request) :
  reachable st -> reachable (run st rs).
Proof.
  intros (redis & rs0 & ->). exists redis, (rs0 ++ rs)%list.
  unfold run. now rewrite fold_left_app.
Qed.

End Reachability.

(** ** Invariants of the sessions in a reachable store *)

Section Invariants.

Lemma counters_valid_nonneg (b : gmap string Q) :
  counters_valid b -> forall k, (0 <= get0 b k)%Q.
Proof.
  intros H k. unfold get0. destruct (b !! k) as [v|] eqn:E; simpl.
  - now destruct (H k v E).
  - lra.
Qed.

Lemma new_session_counters_valid (sid : string) (ts : Z) :
  counters_valid (behaviors (new_session sid ts)).
Proof.
  intros k v. unfold new_session. cbn [behaviors].
  rewrite !lookup_insert. repeat case_decide; subst;
    try (intros [= <-]; split; [simpl; tauto | lra]).
  rewrite lookup_empty. discriminate.
Qed.

Lemma merge_counters_valid (items : list (string * pyval)) :
  forall stored merged,
    counters_valid stored ->
    check_behaviors items = Valid ->
    merge_behaviors stored items = Some merged ->
    counters_valid merged.
Proof.
  induction items as [|[key value] items IH];
    cbn [check_behaviors merge_behaviors]; intros stored merged Hs Hc Hm.
  - now injection Hm as <-.
  - destruct (key_in key valid_behaviors) eqn:Hk; cbn [negb] in Hc; [|discriminate].
    unfold invalid_value in Hc.
    destruct (as_number value) as [x|]; [|discriminate].
    destruct (Py.lt x 0) eqn:Hx; [discriminate|].
    apply (IH _ merged) in Hm; [exact Hm | | exact Hc].
    intros k v. rewrite lookup_insert. case_decide.
    + subst k. intros [= <-]. split; [now apply key_in_iff|].
      apply lt_false in Hx. pose proof (max_ge_r (get0 stored key) x). lra.
    + apply Hs.
Qed.

Lemma update_mood_consistent (s : Session) (data : TrackData)
    (merged : gmap string Q) :
  mood_consistent s -> mood_consistent (update_session s data merged).
Proof.
  intros [Hall Hlast]. unfold mood_consistent.
  cbn [mood_history mood update_session]. unfold update_mood_history.
  destruct (String.eqb_spec (data_mood data) "neutral") as [E1|E1]; cbn [negb andb].
  - split; [exact Hall | intros H; contradiction].
  - destruct (String.eqb_spec (data_mood data) (mood s)) as [E2|E2]; cbn [negb].
    + split; [exact Hall|]. intros _. rewrite E2 in *. now apply Hlast.
    + split.
      * apply Forall_app. split; [exact Hall|]. constructor; [exact E1 | constructor].
      * intros _. eexists. eexists. split; reflexivity.
Qed.

Lemma session_inv_created (r : Request) (sid : string) (s : Session) :
  created r sid s -> session_inv s.
Proof.
  intros [data sid0 items merged _ _ Hc Hm].
  split; [repeat split|]. split.
  { apply (merge_counters_valid items _ merged
             (new_session_counters_valid sid0 (req_timestamp data)) Hc Hm). }
  split; [intros H; discriminate|]. split; [split; reflexivity|].
  split; [split; reflexivity|].
  apply update_mood_consistent. split; [constructor | intros H; now destruct H].
Qed.

Lemma is_salvaged_true (s : Session) :
  is_salvaged s = true <-> 60 <= risk_score s /\ intervention_triggered s = true.
Proof.
  unfold is_salvaged. rewrite Bool.andb_true_iff, Z.leb_le.
  destruct (intervention_triggered s); simpl; intuition congruence.
Qed.

(** An accepted ingest does not lower the score of a session whose stored
    score is that of its counters. *)
Lemma update_session_risk (s : Session) (data : TrackData)
    (items : list (string * pyval)) (merged : gmap string Q) :
  counters_valid (behaviors s) ->
  risk_score s = calculate_churn_risk (behaviors s) ->
  merge_behaviors (behaviors s) items = Some merged ->
  risk_score s <= risk_score (update_session s data merged).
Proof.
  intros Hv Hr Hm. cbn [risk_score update_session]. rewrite Hr.
  apply calculate_churn_risk_mono_five.
  - intros k _. now apply counters_valid_nonneg.
  - intros k _. now apply (merge_behaviors_ge items).
Qed.

Lemma session_inv_step (r : Request) (s s' : Session) :
  session_step r s s' -> session_inv s -> session_inv s'.
Proof.
  intros Hstep (Hd & Hv & Hs & Hc & Hi & Hm).
  destruct Hstep as [r s|data items merged s Hcheck Hmerge|data s|data s].
  - exact (conj Hd (conj Hv (conj Hs (conj Hc (conj Hi Hm))))).
  - split; [repeat split|]. split.
    { apply (merge_counters_valid items _ merged Hv Hcheck Hmerge). }
    split.
    { intros Hsal. cbn [conversion_status update_session] in Hsal.
      apply is_salvaged_true. apply Hs in Hsal.
      apply is_salvaged_true in Hsal as [Hrisk Hint].
      split; [|exact Hint].
      pose proof (update_session_risk s data items merged Hv (proj1 Hd) Hmerge).
      lia. }
    split; [exact Hc|]. split; [exact Hi|]. now apply update_mood_consistent.
  - split; [exact Hd|]. split; [exact Hv|]. split.
    { intros Hsal. cbn [conversion_status with_intervention] in Hsal.
      apply is_salvaged_true. apply Hs in Hsal.
      apply is_salvaged_true in Hsal as [Hrisk _]. split; [exact Hrisk | reflexivity]. }
    split; [exact Hc|]. split; [|exact Hm].
    unfold intervention_fields. cbn. split; eauto.
  - split; [exact Hd|]. split; [exact Hv|]. split.
    { intros Hsal. cbn [conversion_status with_conversion] in Hsal.
      change (is_salvaged (with_conversion s (default 0%Q (conv_order_value data))
                             (conv_timestamp data))) with (is_salvaged s).
      destruct (is_salvaged s); [reflexivity | discriminate]. }
    split; [|split; [exact Hi | exact Hm]].
    unfold conversion_fields. cbn [conversion_status converted_at with_conversion].
    destruct (is_salvaged s); eauto.
Qed.

Lemma reachable_session_inv (st : Store) (sid : string) (s : Session) :
  reachable st -> get_session_redis st sid = Some s -> session_inv s.
Proof.
  apply (reachable_get (fun _ s => session_inv s)).
  - intros r sid0 s0. apply session_inv_created.
  - intros r _ s0 s1. apply session_inv_step.
Qed.

Lemma reachable_all_inv (st : Store) :
  reachable st -> Forall session_inv (get_all_sessions_redis st).
Proof.
  apply (reachable_all session_inv).
  - apply session_inv_created.
  - apply session_inv_step.
Qed.

End Invariants.

(** ** What holds of every stored session *)

Section StoredSessions.



Lemma run_reachable_witness :
  reachable
    (run (empty_store false)
       [Track (high_risk_request "visitor-1" 1000);
        Intervention (intervention_request "visitor-1" 2000);
        Conversion (conversion_request "visitor-1" 120 3000)]).
Proof. eexists. eexists. reflexivity. Qed.


(** X8. For every session of a reachable store the suggested action is the
    immediate intervention exactly when the score is 60 or more, the
    threshold of the high-risk counts, and is the monitoring advice exactly
    when the score is below 30. *)
Theorem immediate_iff_high_risk (st : Store) (sid : string) (s : Session) :
  reachable st ->
  get_session_redis st sid = Some s ->
  (suggested_action s =
     "IMMEDIATE INTERVENTION - Trigger discount popup or live chat"
   <-> 60 <= risk_score s) /\
  (suggested_action s = "Monitor session - no intervention needed"
   <-> risk_score s < 30).
Proof.
  intros Hr Hs.
  destruct (reachable_session_inv st sid s Hr Hs) as ((_ & _ & H3) & _).
  rewrite H3. unfold suggest_intervention.
  destruct (risk_score s <? 30) eqn:E1; [apply Z.ltb_lt in E1 | apply Z.ltb_ge in E1].
  - split; (split; [discriminate || (intros _; lia) | intros; lia || reflexivity]).
  - destruct (risk_score s <? 60) eqn:E2;
      [apply Z.ltb_lt in E2 | apply Z.ltb_ge in E2];
      split; (split; [discriminate || (intros _; lia) | intros; lia || reflexivity]).
Qed.

Lemma immediate_iff_high_risk_witness :
  exists s,
    get_session_redis
      (run (empty_store false)
         [Track (high_risk_request "visitor-1" 1000);
          Intervention (intervention_request "visitor-1" 2000);
          Conversion (conversion_request "visitor-1" 120 3000)])
      "visitor-1" = Some s /\
    (suggested_action s =
       "IMMEDIATE INTERVENTION - Trigger discount popup or live chat"
     <-> 60 <= risk_score s).
Proof.
  eexists. split; [vm_compute; reflexivity|].
  eapply (immediate_iff_high_risk _ "visitor-1").
  - apply run_reachable_witness.
  - vm_compute. reflexivity.
Defined.

(** X9. In a reachable store every session is stored under its own
    [session_id], and that id passes [validate_session_id]. *)
Theorem stored_under_own_id (st : Store) (sid : string) (s : Session) :
  reachable st ->
  get_session_redis st sid = Some s ->
  session_id s = sid /\ validate_session_id (PyStr sid) = true.
Proof.
  intros Hr Hs. split.
  - revert Hr Hs. apply (reachable_get (fun sid s => session_id s = sid)).
    + intros r sid0 s0 Hc. now destruct Hc.
    + intros r sid0 s0 s1 Hstep H. now destruct Hstep.
  - destruct Hr as (redis & rs & ->).
    apply (reachable_ids_valid redis rs). now exists s.
Qed.

Lemma stored_under_own_id_witness :
  exists s,
    get_session_redis
      (run (empty_store false)
         [Track (high_risk_request "visitor-1" 1000);
          Intervention (intervention_request "visitor-1" 2000);
          Conversion (conversion_request "visitor-1" 120 3000)])
      "visitor-1" = Some s /\
    session_id s = "visitor-1".
Proof.
  eexists. split; [vm_compute; reflexivity|].
  eapply (stored_under_own_id _ "visitor-1").
  - apply run_reachable_witness.
  - vm_compute. reflexivity.
Defined.





End StoredSessions.

(** ** What a sequence of requests never undoes *)

Section NeverUndone.










End NeverUndone.

(** ** Requests and the store *)

Section RequestsAndStore.











End RequestsAndStore.

(** ** Bounds on the salvage statistics *)

Section StatisticsBounds.

Lemma filter_length_impl {A : Type} (f g : A -> bool) (l : list A) :
  Forall (fun x => f x = true -> g x = true) l ->
  (List.length (List.filter f l) <= List.length (List.filter g l))%nat.
Proof.
  induction 1 as [|x l Hx _ IH]; cbn [List.filter]; [lia|].
  destruct (f x) eqn:Ef.
  - rewrite (Hx eq_refl). cbn [List.length]. lia.
  - destruct (g x); cbn [List.length]; lia.
Qed.

Lemma round_half_even_bounds (x : Q) (lo hi : Z) :
  (inject_Z lo <= x)%Q -> (x <= inject_Z hi)%Q ->
  lo <= Py.round_half_even x <= hi.
Proof.
  intros Hlo Hhi.
  pose proof (Qfloor_le x) as Hf1. pose proof (Qlt_floor x) as Hf2.
  assert (Hl : lo <= Qfloor x).
  { rewrite <- (Qfloor_Z lo). now apply Qfloor_resp_le. }
  assert (Hh : Qfloor x <= hi).
  { rewrite <- (Qfloor_Z hi). now apply Qfloor_resp_le. }
  unfold Py.round_half_even.
  destruct (Qcompare_spec (x - inject_Z (Qfloor x)) (1 # 2)) as [E|E|E].
  - assert (Hlt : (inject_Z (Qfloor x) < inject_Z hi)%Q) by lra.
    rewrite <- Zlt_Qlt in Hlt. destruct (Z.even (Qfloor x)); lia.
  - lia.
  - assert (Hlt : (inject_Z (Qfloor x) < inject_Z hi)%Q) by lra.
    rewrite <- Zlt_Qlt in Hlt. lia.
Qed.

(** Rounding to four decimals keeps a number of [[0,1]] in [[0,1]]. *)
Lemma round4_unit (x : Q) :
  (0 <= x)%Q -> (x <= 1)%Q -> (0 <= Py.round x 4)%Q /\ (Py.round x 4 <= 1)%Q.
Proof.
  intros H0 H1. unfold Py.round.
  change (inject_Z (10 ^ Z.of_nat 4)) with (inject_Z 10000).
  destruct (round_half_even_bounds (x * inject_Z 10000) 0 10000) as [Hl Hh].
  - change (inject_Z 0) with 0%Q. change (inject_Z 10000) with 10000%Q. lra.
  - change (inject_Z 10000) with 10000%Q. lra.
  - rewrite Zle_Qle in Hl, Hh. change (inject_Z 0) with 0%Q in Hl.
    change (inject_Z 10000) with 10000%Q in *. split.
    + apply Qle_shift_div_l; [reflexivity | lra].
    + apply Qle_shift_div_r; [reflexivity | lra].
Qed.

(** X20. In a reachable store the statistics are coherent: the salvaged
    sessions are at most as many as the high-risk sessions and at most as
    many as the conversions, the reported salvage rate lies between 0 and 1,
    and every session listed as salvaged has a score of 60 or more and a
    recorded intervention. *)
Theorem salvage_stats_bounds (st : Store) :
  reachable st ->
  (total_salvaged_customers (get_salvage_stats st)
   <= total_high_risk (get_salvage_stats st))%nat /\
  (total_salvaged_customers (get_salvage_stats st)
   <= total_conversions (get_salvage_stats st))%nat /\
  (0 <= salvage_rate (get_salvage_stats st))%Q /\
  (salvage_rate (get_salvage_stats st) <= 1)%Q /\
  Forall (fun s => conversion_status s = salvaged /\ 60 <= risk_score s /\
                   intervention_triggered s = true)
    (salvaged_sessions (get_salvage_stats st)).
Proof.
  intros Hr. pose proof (reachable_all_inv st Hr) as Hinv.
  assert (Hsal : forall s, In s (get_all_sessions_redis st) ->
                 status_eqb (conversion_status s) salvaged = true ->
                 60 <= risk_score s /\ intervention_triggered s = true).
  { intros s Hin E. apply is_salvaged_true.
    destruct (proj1 (List.Forall_forall _ _) Hinv s Hin) as (_ & _ & Hs & _).
    apply Hs. now destruct (conversion_status s). }
  assert (Hle : (List.length
                   (List.filter (fun s => status_eqb (conversion_status s) salvaged)
                      (get_all_sessions_redis st))
                 <= List.length
                      (List.filter (fun s => (60 <=? risk_score s)%Z)
                         (get_all_sessions_redis st)))%nat).
  { apply filter_length_impl. apply List.Forall_forall. intros s Hin E.
    apply Z.leb_le. now apply Hsal. }
  unfold get_salvage_stats.
  cbn [total_salvaged_customers total_high_risk total_conversions salvage_rate
       salvaged_sessions].
  split; [exact Hle|]. split.
  { apply filter_length_impl. apply List.Forall_forall. intros s _ E.
    cbn [existsb]. rewrite E. now rewrite Bool.orb_true_r. }
  assert (Hrate :
    let high := List.filter (fun s => (60 <=? risk_score s)%Z) (get_all_sessions_redis st) in
    let sal := List.filter (fun s => status_eqb (conversion_status s) salvaged)
                 (get_all_sessions_redis st) in
    (0 <= (if (0 <? List.length high)%nat then len sal / len high else 0))%Q /\
    ((if (0 <? List.length high)%nat then len sal / len high else 0) <= 1)%Q).
  { intros high sal. fold high sal in Hle. unfold len.
    destruct (0 <? List.length high)%nat eqn:E; [|split; lra].
    apply Nat.ltb_lt in E.
    assert (H0 : (0 < inject_Z (Z.of_nat (List.length high)))%Q).
    { change 0%Q with (inject_Z 0). rewrite <- Zlt_Qlt. lia. }
    assert (H1 : (0 <= inject_Z (Z.of_nat (List.length sal)))%Q).
    { change 0%Q with (inject_Z 0). rewrite <- Zle_Qle. lia. }
    assert (H2 : (inject_Z (Z.of_nat (List.length sal))
                  <= inject_Z (Z.of_nat (List.length high)))%Q).
    { rewrite <- Zle_Qle. lia. }
    split.
    - apply Qle_shift_div_l; [exact H0 | lra].
    - apply Qle_shift_div_r; [exact H0 | lra]. }
  destruct Hrate as [Hr0 Hr1].
  destruct (round4_unit _ Hr0 Hr1) as [R0 R1].
  split; [exact R0|]. split; [exact R1|].
  apply List.Forall_forall. intros s Hin. apply filter_In in Hin as [Hin E].
  split; [now destruct (conversion_status s) | now apply Hsal].
Qed.

Lemma salvage_stats_bounds_witness :
  (salvage_rate
     (get_salvage_stats (run (empty_store false) one_salvaged_of_three)) <= 1)%Q.
Proof.
  apply (salvage_stats_bounds (run (empty_store false) one_salvaged_of_three)).
  eexists. eexists. reflexivity.
Defined.

End StatisticsBounds.

(** ** A tracking request sent twice *)

Section Replay.





End Replay.

(** ** What an accepted tracking request writes *)

Section TrackWrites.





End TrackWrites.

(** ** One entry per session *)

Section OneEntryPerSession.

Lemma dict_get_None_notin {V : Type} (d : list (string * V)) (k : string) :
  dict_get d k = None -> ~ In k (List.map fst d).
Proof.
  induction d as [|[k0 v0] d IH]; cbn [dict_get List.map fst]; [intros _ []|].
  destruct (String.eqb_spec k0 k) as [->|Hne]; [discriminate|].
  intros H [E|Hin]; [contradiction | now apply IH].
Qed.

Lemma dict_set_NoDup {V : Type} (d : list (string * V)) (k : string) (v : V) :
  List.NoDup (List.map fst d) -> List.NoDup (List.map fst (dict_set d k v)).
Proof.
  intros H. rewrite dict_set_keys.
  destruct (dict_get d k) eqn:E; [exact H|].
  apply NoDup_rev in H. rewrite <- (rev_involutive (_ ++ [k])%list).
  apply NoDup_rev. rewrite rev_app_distr. cbn [rev app].
  constructor; [|exact H]. rewrite <- in_rev. now apply dict_get_None_notin.
Qed.

Lemma dict_get_of_In {V : Type} (d : list (string * V)) (k : string) (v : V) :
  List.NoDup (List.map fst d) -> In (k, v) d -> dict_get d k = Some v.
Proof.
  induction d as [|[k0 v0] d IH]; cbn [dict_get List.map fst]; [intros _ []|].
  intros Hnd [[= -> ->]|Hin].
  - now rewrite String.eqb_refl.
  - apply NoDup_cons_iff in Hnd as [Hk0 Hnd].
    destruct (String.eqb_spec k0 k) as [->|_].
    + exfalso. apply Hk0. now apply (in_map fst _ (k, v)).
    + now apply IH.
Qed.

Lemma NoDup_map_filter {A B : Type} (g : A -> B) (f : A -> bool) (l : list A) :
  List.NoDup (List.map g l) -> List.NoDup (List.map g (List.filter f l)).
Proof.
  induction l as [|a l IH]; cbn [List.map List.filter]; [auto|].
  intros H. apply NoDup_cons_iff in H as [Ha H].
  destruct (f a); cbn [List.map]; [|now apply IH].
  constructor; [|now apply IH].
  intros Hin. apply Ha. apply in_map_iff in Hin as (x & E & Hx).
  apply filter_In in Hx as [Hx _]. rewrite <- E. now apply in_map.
Qed.

Lemma session_step_id (r : Request) (s s' : Session) :
  session_step r s s' -> session_id s' = session_id s.
Proof. now intros [| | |]. Qed.

Lemma get_keyed (st : Store) (sid : string) (s : Session) :
  keyed_by_id st -> get_session_redis st sid = Some s -> session_id s = sid.
Proof.
  intros [Hr Hm]. unfold get_session_redis. destruct (redis_client st).
  - destruct (dict_get (redis_db st) (redis_key sid)) as [[ttl s0]|] eqn:E;
      [|discriminate].
    intros [= <-]. apply dict_get_In in E. apply Hr in E.
    symmetry. now apply redis_key_inj.
  - intros H. apply dict_get_In in H. symmetry. now apply Hm.
Qed.

Lemma put_store_inv (st : Store) (sid : string) (ttl : Z) (s : Session) :
  session_id s = sid ->
  keys_unique st /\ keyed_by_id st ->
  keys_unique (put st sid ttl s) /\ keyed_by_id (put st sid ttl s).
Proof.
  intros Hid [[U1 U2] [K1 K2]]. unfold keys_unique, keyed_by_id, put.
  destruct (redis_client st); cbn [redis_db sessions_memory setex memory_set].
  - split; [split; [now apply dict_set_NoDup | exact U2]|].
    split; [|exact K2]. intros k t x Hin.
    apply dict_set_In_inv in Hin as [[= -> -> ->]|Hin];
      [now rewrite Hid | now apply (K1 k t)].
  - split; [split; [exact U1 | now apply dict_set_NoDup]|].
    split; [exact K1|]. intros k x Hin.
    apply dict_set_In_inv in Hin as [[= -> ->]|Hin]; [now rewrite Hid | now apply K2].
Qed.

Lemma reachable_store_inv (st : Store) :
  reachable st -> keys_unique st /\ keyed_by_id st.
Proof.
  intros (redis & rs & ->). induction rs as [|r rs IH] using rev_ind.
  - repeat split; cbn; try constructor; intros; contradiction.
  - unfold run in *. rewrite fold_left_app. cbn [fold_left].
    set (st := fold_left step rs (empty_store redis)) in *.
    destruct (step_put st r) as [->|(sid & s' & _ & _ & -> & Ho)]; [exact IH|].
    apply put_store_inv; [|exact IH].
    destruct Ho as [(s & Hs & Hstep)|[_ Hc]].
    + rewrite (session_step_id r s s' Hstep). now apply (get_keyed st).
    + now destruct Hc.
Qed.

Lemma scan_ids_NoDup (st : Store) :
  keys_unique st -> keyed_by_id st ->
  List.NoDup (List.map session_id (get_all_sessions_redis st)).
Proof.
  intros [U1 U2] [K1 K2]. unfold get_all_sessions_redis.
  destruct (redis_client st).
  - apply (NoDup_map_inv redis_key). rewrite !map_map.
    rewrite (map_ext_in _ fst).
    + now apply NoDup_map_filter.
    + intros [k [t x]] Hin. apply filter_In in Hin as [Hin _]. cbn.
      symmetry. now apply (K1 k t).
  - rewrite map_map. rewrite (map_ext_in _ fst); [exact U2|].
    intros [k x] Hin. cbn. symmetry. now apply K2.
Qed.

Lemma scan_fetched (st : Store) (s : Session) :
  keys_unique st -> keyed_by_id st ->
  In s (get_all_sessions_redis st) ->
  get_session_redis st (session_id s) = Some s.
Proof.
  intros [U1 U2] [K1 K2]. unfold get_all_sessions_redis, get_session_redis.
  destruct (redis_client st).
  - intros Hin. apply in_map_iff in Hin as ([k [t x]] & <- & Hin).
    apply filter_In in Hin as [Hin _]. cbn [snd].
    rewrite <- (K1 k t x Hin). now rewrite (dict_get_of_In _ k (t, x) U1 Hin).
  - intros Hin. apply in_map_iff in Hin as ([k x] & <- & Hin). cbn [snd].
    rewrite <- (K2 k x Hin). now apply dict_get_of_In.
Qed.

(** X24. In a reachable store there is one entry per session: no two
    stored sessions carry the same id, the scan returns for each id the very
    session that the lookup by that id returns, and the dashboard listing
    shows each session id at most once. *)
Theorem one_entry_per_session (st : Store) (now : Z) :
  reachable st ->
  List.NoDup (List.map session_id (get_all_sessions_redis st)) /\
  (forall s, In s (get_all_sessions_redis st) ->
     get_session_redis st (session_id s) = Some s) /\
  List.NoDup (List.map sum_session_id (sessions (get_all_sessions st now))).
Proof.
  intros Hr. destruct (reachable_store_inv st Hr) as [HU HK].
  pose proof (scan_ids_NoDup st HU HK) as Hnd.
  split; [exact Hnd|]. split; [intros s; now apply scan_fetched|].
  rewrite get_all_sessions_sessions.
  apply (Permutation_NoDup
           (Permutation_sym
              (Permutation_map sum_session_id (sort_by_risk_desc_perm _)))).
  rewrite map_map. cbn [sum_session_id summary].
  now apply NoDup_map_filter.
Qed.

Lemma one_entry_per_session_witness :
  List.NoDup
    (List.map sum_session_id
       (sessions
          (get_all_sessions
             (run (empty_store true)
                [Track (high_risk_request "visitor-1" 1000);
                 Track (mood_request "visitor-2" 1500 "happy");
                 Track (mood_request "visitor-1" 2000 "sad")])
             3000))).
Proof.
  apply (one_entry_per_session
           (run (empty_store true)
              [Track (high_risk_request "visitor-1" 1000);
               Track (mood_request "visitor-2" 1500 "happy");
               Track (mood_request "visitor-1" 2000 "sad")])
           3000).
  eexists. eexists. reflexivity.
Defined.

End OneEntryPerSession.
